(** * RAG document pipeline: a shallow embedding of the Python sources

    The development follows [src/utils.py], [src/document_processor.py],
    [src/rag_system.py] and [src/api.py].  Python code that raises and
    mutates is written in a state-and-exception monad whose state survives
    an exception, as Python's side effects do.  Third-party capabilities
    (PDF loader, text splitter, embedding model, vector search, LLM, SHA-256,
    [os.path] helpers) are the fields of one interface record, [Externals];
    module [TextSplitter] follows the text splitter the sources construct.

    Text is modelled with [string] (8-bit characters, ASCII case mapping),
    file contents with [list byte], Python integers with [Z], [nat] or [N]. *)

From Stdlib Require Import List String Ascii ZArith NArith Arith Bool Lia.
From Stdlib Require Import Strings.Byte DecimalString.
Import ListNotations.
Local Open Scope string_scope.
Local Open Scope list_scope.

(** ** Python strings and slices *)

Module PyStr.

Definition lower_char (c : ascii) : ascii :=
  let n := nat_of_ascii c in
  if (65 <=? n)%nat && (n <=? 90)%nat then ascii_of_nat (n + 32) else c.

(** [s.lower()] *)
Fixpoint lower (s : string) : string :=
  match s with
  | EmptyString => EmptyString
  | String c r => String (lower_char c) (lower r)
  end.

(** [s[:n]] *)
Definition slice_to (n : nat) (s : string) : string := substring 0 n s.

(** [s.endswith(suffix)] *)
Definition endswith (s suffix : string) : bool :=
  let n := String.length s in
  let m := String.length suffix in
  (m <=? n)%nat && String.eqb (substring (n - m) m s) suffix.

(** [s.startswith(prefix)] *)
Definition startswith (s pre : string) : bool :=
  String.eqb (substring 0 (String.length pre) s) pre.

(** [sep.join(parts)] *)
Definition join (sep : string) (parts : list string) : string :=
  String.concat sep parts.

(** [data[:n]] on bytes, and what [file.read(n)] returns for a regular
    file opened in binary mode: the first [n] bytes, or all of them when
    the file is shorter. *)
Fixpoint takeN {A : Type} (n : N) (l : list A) : list A :=
  match l with
  | [] => []
  | x :: r => if N.eqb n 0 then [] else x :: takeN (N.pred n) r
  end.

End PyStr.

(** ** Exceptions *)

Inductive exn_class : Type :=
| FileNotFoundError
| ValueError
| OSError
| LibraryError.

(** An exception value: its class and [str(e)]. *)
Record exn : Type := Exn { exn_cls : exn_class; exn_str : string }.

Definition result (A : Type) : Type := (exn + A)%type.

Definition is_ok {A : Type} (r : result A) : bool :=
  match r with inr _ => true | inl _ => false end.

(** ** Data model *)

(** [Document.metadata] as [PyPDFLoader] fills it. *)
Record Metadata : Type := { source : string; page : Z }.

(** langchain's [Document]. *)
Record Document : Type := { page_content : string; metadata : Metadata }.

(** An entry of the Chroma collection. *)
Record Entry (V : Type) : Type :=
  { vector : V; entry_doc : Document }.
Arguments vector {V} _.
Arguments entry_doc {V} _.
Arguments Build_Entry {V} _ _.

(** [os.stat] of a file. *)
Record Stat : Type := { st_size : Z; st_mtime : Z }.

(** What a directory entry answers to [os.stat] and to reading it after
    [open(..., 'rb')]; [inl e] is the call raising [e]. *)
Record Node : Type :=
  { node_stat : result Stat; node_bytes : result (list byte) }.

(** The text splitter's constructor arguments ([length_function=len]). *)
Record SplitterConfig : Type := { chunk_size : nat; chunk_overlap : nat }.

(** The two places that build a splitter. *)
Definition document_processor_splitter : SplitterConfig :=
  {| chunk_size := 1000; chunk_overlap := 200 |}.
Definition rag_system_splitter : SplitterConfig :=
  {| chunk_size := 1000; chunk_overlap := 200 |}.

(** ** External capabilities *)

Record Externals : Type := {
  Vec : Type;
  (** [os.path.normpath], [os.path.join], [os.path.basename],
      [os.path.normcase] *)
  normpath : string -> string;
  path_join : string -> string -> string;
  basename : string -> string;
  normcase : string -> string;
  (** the data/pdfs directory next to the package, computed from [__file__] *)
  relative_pdf_dir : string;
  (** [PyPDFLoader(path).load()] *)
  load_pdf : string -> Node -> result (list Document);
  (** [text_splitter.split_documents(documents)] *)
  split_documents : SplitterConfig -> list Document -> result (list Document);
  (** the embedding model on one text *)
  embed : string -> result Vec;
  (** the collection's similarity search, ranked best first *)
  similarity_search :
    list (Entry Vec) -> string -> nat -> result (list Document);
  (** one call of the chat model *)
  llm_call : string -> result string;
  (** [datetime.fromtimestamp(t).strftime('%Y-%m-%d %H:%M:%S')] *)
  format_mtime : Z -> string;
  (** [hashlib.sha256(data).hexdigest()] *)
  sha256_hexdigest : list byte -> string;
  (** [glob.glob] of [*.pdf] under a directory path that itself holds
      wildcard characters, given the directories that exist *)
  glob_wild :
    (string -> option (result (list (string * Node)))) -> string ->
    list (string * Node);
  (** what [Chroma.from_documents] raises when handed no document *)
  chroma_empty_error : exn
}.

(** ** The world the program runs in *)

(** Contents of [self.vector_store_path]: nothing, or Chroma's persisted
    collection. *)
Inductive StoreDir (V : Type) : Type :=
| DirEmpty
| DirPersisted (entries : list (Entry V)).
Arguments DirEmpty {V}.
Arguments DirPersisted {V} _.

(** Calls that leave the process or touch the collection. *)
Inductive Event (V : Type) : Type :=
| EvLoad (path : string)
| EvOpenStore
| EvInsert (entries : list (Entry V))
| EvPersist
| EvSearch (query : string) (k : nat)
| EvLLM (prompt : string).
Arguments EvLoad {V} _.
Arguments EvOpenStore {V}.
Arguments EvInsert {V} _.
Arguments EvPersist {V}.
Arguments EvSearch {V} _ _.
Arguments EvLLM {V} _.

Record State (V : Type) : Type := {
  (** directories by path: [None] for a path that does not exist,
      otherwise what [os.listdir] returns, in its order, or raises *)
  fs : string -> option (result (list (string * Node)));
  (** [self.pdf_dir] *)
  pdf_dir : string;
  store_dir : StoreDir V;
  (** [self.vector_store]; [None] is Python's [None] *)
  vector_store : option (list (Entry V));
  events : list (Event V)
}.
Arguments fs {V} _.
Arguments pdf_dir {V} _.
Arguments store_dir {V} _.
Arguments vector_store {V} _.
Arguments events {V} _.
Arguments Build_State {V} _ _ _ _ _.

(** ** The monad *)

Module PyM.

Definition M (S A : Type) : Type := S -> result A * S.

Definition ret {S A} (a : A) : M S A := fun s => (inr a, s).

Definition bind {S A B} (m : M S A) (k : A -> M S B) : M S B :=
  fun s =>
    match m s with
    | (inr a, s') => k a s'
    | (inl e, s') => (inl e, s')
    end.

Definition raise {S A} (e : exn) : M S A := fun s => (inl e, s).

(** [try: m  except Exception as e: h e] *)
Definition try_except {S A} (m : M S A) (h : exn -> M S A) : M S A :=
  fun s =>
    match m s with
    | (inr a, s') => (inr a, s')
    | (inl e, s') => h e s'
    end.

Definition lift {S A} (r : result A) : M S A := fun s => (r, s).

Definition get {S} : M S S := fun s => (inr s, s).

Definition modify {S} (f : S -> S) : M S unit := fun s => (inr tt, f s).

End PyM.
Import PyM.

Declare Scope py_scope.
Delimit Scope py_scope with py.
Notation "x <- m ;; k" := (bind m (fun x => k))
  (at level 61, m at next level, right associativity) : py_scope.
Notation "m ;;; k" := (bind m (fun _ => k))
  (at level 61, right associativity) : py_scope.
Local Open Scope py_scope.


Definition log_event {V : Type} (e : Event V) (st : State V) : State V :=
  {| fs := fs st; pdf_dir := pdf_dir st; store_dir := store_dir st;
     vector_store := vector_store st; events := events st ++ [e] |}.

Definition set_vector_store {V : Type} (h : option (list (Entry V)))
  (st : State V) : State V :=
  {| fs := fs st; pdf_dir := pdf_dir st; store_dir := store_dir st;
     vector_store := h; events := events st |}.

Definition set_store_dir {V : Type} (d : StoreDir V) (st : State V) : State V :=
  {| fs := fs st; pdf_dir := pdf_dir st; store_dir := d;
     vector_store := vector_store st; events := events st |}.

(** [os.path.exists(path)] for a directory path *)
Definition path_exists {V : Type} (st : State V) (path : string) : bool :=
  match fs st path with Some _ => true | None => false end.

(** [f.lower().endswith('.pdf')] *)
Definition is_pdf_name (f : string) : bool :=
  PyStr.endswith (PyStr.lower f) ".pdf".

(** ** utils.py *)

Definition default_read_bytes : N := 1024 * 1024.

(** [round(st_size / 1024, 2)], given as a number of hundredths.  The
    quotient of a file size by 1024 is an exact binary fraction, and Python
    rounds it to the nearest hundredth, a tie going to the even one. *)
Definition round_half_even (num den : Z) : Z :=
  let q := (num / den)%Z in
  let r := (num mod den)%Z in
  if (2 * r <? den)%Z then q
  else if (den <? 2 * r)%Z then (q + 1)%Z
  else if Z.even q then q else (q + 1)%Z.

Definition size_kb_of (size : Z) : Z := round_half_even (size * 100) 1024.

(** One element of [list_documents]'s result. *)
Inductive DocInfo : Type :=
| DocMeta (filename : string) (size_kb : Z) (modified_date : string)
    (hash : string)
| DocError (filename : string) (error : string).


(** ** document_processor.py *)

Inductive FileStatus : Type :=
| FileSuccess (filename : string) (chunks pages : nat)
| FileFailed (filename : string) (error : string).

Record Report : Type :=
  { processed : nat; failed : nat; files : list FileStatus }.

Definition raw_path : string :=
  "F:\softograph\rag_langchain_project\data\pdfs".

(** ** rag_system.py *)

Definition nl : string := String (ascii_of_nat 10) EmptyString.

(** [PromptTemplate(template=..., input_variables=["context", "question"])]
    formatted with a context and a question. *)
Definition prompt_format (context question : string) : string :=
  "
        You are a helpful AI assistant that provides accurate information based on the given context.
        
        Context:
        " ++ context ++ "
        
        Question:
        " ++ question ++ "
        
        Please provide a detailed answer based only on the provided context. If the context doesn't contain 
        relevant information to answer the question, state that you don't have enough information.
        ".

(** What the QA chain returns: [result["result"]] and
    [result["source_documents"]]. *)
Record ChainResult : Type :=
  { chain_answer : string; source_documents : list Document }.

(** One element of [sources]. *)
Record SourceInfo : Type := { content : string; src_metadata : Metadata }.

Record QueryResult : Type := { answer : string; sources : list SourceInfo }.

(** The JSON answer of [/api/process-documents]. *)
Inductive Response : Type :=
| Resp200 (message : string) (details : Report)
| Resp500 (message : string).

Definition string_of_nat (n : nat) : string :=
  NilEmpty.string_of_uint (Nat.to_uint n).

(** [glob.has_magic]: one of [*], [?], [[] occurs. *)
Fixpoint has_magic (s : string) : bool :=
  match s with
  | EmptyString => false
  | String c r =>
      Ascii.eqb c "*"%char || Ascii.eqb c "?"%char || Ascii.eqb c "["%char
      || has_magic r
  end.

Section Program.

Variable X : Externals.

Abbreviation V := (Vec X).
Abbreviation St := (State (Vec X)).

(** *** utils.generate_file_hash *)

Definition generate_file_hash (node : Node) (read_bytes : N) : result string :=
  match node_bytes node with
  | inl e => inl e
  | inr data =>
      let chunk := PyStr.takeN read_bytes data in
      inr (sha256_hexdigest X chunk)
  end.

(** *** utils.list_documents *)

(** The body of the loop's [try], for one file. *)
Definition document_info (pdf_file : string) (node : Node) : DocInfo :=
  match node_stat node with
  | inl e => DocError pdf_file (exn_str e)
  | inr stats =>
      let size_kb := size_kb_of (st_size stats) in
      let modified_date := format_mtime X (st_mtime stats) in
      match generate_file_hash node default_read_bytes with
      | inl e => DocError pdf_file (exn_str e)
      | inr file_hash => DocMeta pdf_file size_kb modified_date file_hash
      end
  end.

Definition list_documents (pdf_directory : string) : M St (list DocInfo) :=
  st <- get ;;
  match fs st pdf_directory with
  | None => ret []
  | Some listing =>
      entries <- lift listing ;;
      let pdf_files := filter (fun e => is_pdf_name (fst e)) entries in
      ret (map (fun e => document_info (fst e) (snd e)) pdf_files)
  end.

(** *** document_processor.process_documents *)

(** [PyPDFLoader(pdf_path).load()] *)
Definition PyPDFLoader_load (pdf_path : string) (node : Node)
  : M St (list Document) :=
  modify (log_event (EvLoad pdf_path)) ;;;
  lift (load_pdf X pdf_path node).

(** The directory the function settles on, after its fall-backs. *)
Definition resolve_pdf_directory (pdf_directory : string) : M St string :=
  st <- get ;;
  if path_exists st pdf_directory then ret pdf_directory
  else if path_exists st (relative_pdf_dir X) then ret (relative_pdf_dir X)
  else if path_exists st raw_path then ret raw_path
  else raise (Exn FileNotFoundError
                ("PDF directory not found: " ++ pdf_directory)).

(** [glob.glob(os.path.join(pdf_directory, "*.pdf"))].  A directory path
    with wildcard characters is itself expanded as a pattern.  Otherwise
    the result is the entries of that directory that are not hidden and
    whose case-normalised name ends in [.pdf], as paths; a directory that
    is missing or cannot be listed gives none. *)
Definition glob_pdf (st : St) (pdf_directory : string)
  : list (string * Node) :=
  if has_magic pdf_directory then glob_wild X (fs st) pdf_directory
  else
    match fs st pdf_directory with
    | Some (inr entries) =>
        map (fun e => (path_join X pdf_directory (fst e), snd e))
          (filter (fun e => negb (PyStr.startswith (fst e) ".")
                            && PyStr.endswith (normcase X (fst e)) ".pdf")
             entries)
    | _ => []
    end.

(** The [try] body for one file: load, then split. *)
Definition load_and_split (cfg : SplitterConfig) (pdf_path : string)
  (node : Node) : M St (list Document * list Document) :=
  documents <- PyPDFLoader_load pdf_path node ;;
  chunks <- lift (split_documents X cfg documents) ;;
  ret (documents, chunks).

Definition report_success (acc : Report) (pdf_file : string)
  (documents chunks : list Document) : Report :=
  {| processed := processed acc + 1;
     failed := failed acc;
     files := files acc ++
              [FileSuccess pdf_file (List.length chunks) (List.length documents)] |}.

Definition report_failure (acc : Report) (pdf_file : string) (e : exn)
  : Report :=
  {| processed := processed acc;
     failed := failed acc + 1;
     files := files acc ++ [FileFailed pdf_file (exn_str e)] |}.

(** [for pdf_path in pdf_files: try: ... except Exception as e: ...] *)
Fixpoint process_loop (pdf_files : list (string * Node)) (acc : Report)
  : M St Report :=
  match pdf_files with
  | [] => ret acc
  | (pdf_path, node) :: rest =>
      let pdf_file := basename X pdf_path in
      acc' <- try_except
                (dc <- load_and_split document_processor_splitter pdf_path node ;;
                 ret (report_success acc pdf_file (fst dc) (snd dc)))
                (fun e => ret (report_failure acc pdf_file e)) ;;
      process_loop rest acc'
  end.

Definition empty_report : Report :=
  {| processed := 0; failed := 0; files := [] |}.

Definition process_documents (pdf_directory : string) : M St Report :=
  let pdf_directory := normpath X pdf_directory in
  pdf_directory <- resolve_pdf_directory pdf_directory ;;
  st <- get ;;
  let pdf_files := glob_pdf st pdf_directory in
  match pdf_files with
  | [] => ret empty_report
  | _ => process_loop pdf_files empty_report
  end.

(** *** RAGSystem.initialize_vector_store *)

(** [for pdf_file in pdf_files: ... documents.extend(chunks)]; no [try]
    inside the loop. *)
Fixpoint load_all_chunks (dir : string) (pdf_files : list (string * Node))
  (documents : list Document) : M St (list Document) :=
  match pdf_files with
  | [] => ret documents
  | (pdf_file, node) :: rest =>
      let pdf_path := path_join X dir pdf_file in
      pdf_documents <- PyPDFLoader_load pdf_path node ;;
      chunks <- lift (split_documents X rag_system_splitter pdf_documents) ;;
      load_all_chunks dir rest (documents ++ chunks)
  end.

(** The embedding model over a batch, one vector per text, in order. *)
Fixpoint embed_documents (docs : list Document) : result (list (Entry V)) :=
  match docs with
  | [] => inr []
  | d :: rest =>
      match embed X (page_content d) with
      | inl e => inl e
      | inr v =>
          match embed_documents rest with
          | inl e => inl e
          | inr es => inr ({| vector := v; entry_doc := d |} :: es)
          end
      end
  end.

(** [Chroma.from_documents(documents, embedding, persist_directory)]: the
    store's files are created first, with an empty collection; no document
    is an error; the texts are then embedded and one entry per document is
    added to the collection. *)
Definition Chroma_from_documents (documents : list Document)
  : M St (list (Entry V)) :=
  modify (set_store_dir (DirPersisted [])) ;;;
  match documents with
  | [] => raise (chroma_empty_error X)
  | _ :: _ =>
      entries <- lift (embed_documents documents) ;;
      modify (log_event (EvInsert entries)) ;;;
      modify (set_store_dir (DirPersisted entries)) ;;;
      ret entries
  end.

(** [Chroma(persist_directory, embedding_function)] on a populated
    directory: the persisted collection. *)
Definition Chroma_open (persisted : list (Entry V)) : M St (list (Entry V)) :=
  modify (log_event EvOpenStore) ;;;
  ret persisted.

(** [self.vector_store.persist()] *)
Definition persist : M St unit :=
  st <- get ;;
  match vector_store st with
  | None => raise (Exn LibraryError "'NoneType' object has no attribute 'persist'")
  | Some entries =>
      modify (log_event EvPersist) ;;;
      modify (set_store_dir (DirPersisted entries))
  end.

Definition initialize_vector_store : M St bool :=
  try_except
    (st <- get ;;
     match store_dir st with
     | DirPersisted persisted =>
         h <- Chroma_open persisted ;;
         modify (set_vector_store (Some h)) ;;;
         ret true
     | DirEmpty =>
         match fs st (pdf_dir st) with
         | None =>
             raise (Exn FileNotFoundError
                      ("PDF directory not found: " ++ pdf_dir st))
         | Some listing =>
             entries <- lift listing ;;
             let pdf_files := filter (fun e => is_pdf_name (fst e)) entries in
             match pdf_files with
             | [] =>
                 raise (Exn ValueError
                          ("No PDF files found in " ++ pdf_dir st))
             | _ =>
                 documents <- load_all_chunks (pdf_dir st) pdf_files [] ;;
                 h <- Chroma_from_documents documents ;;
                 modify (set_vector_store (Some h)) ;;;
                 persist ;;;
                 ret true
             end
         end
     end)
    (fun e => raise e).

(** *** RAGSystem.get_retriever *)

(** The retriever is the store handle together with [k = 5]. *)
Definition retriever_k : nat := 5.

Definition get_retriever : M St (list (Entry V)) :=
  st <- get ;;
  match vector_store st with
  | None =>
      initialize_vector_store ;;;
      st' <- get ;;
      match vector_store st' with
      | Some h => ret h
      | None => raise (Exn LibraryError
                         "'NoneType' object has no attribute 'as_retriever'")
      end
  | Some h => ret h
  end.

(** *** RAGSystem.query *)

(** [qa_chain({"query": query_text})] for the "stuff" chain with
    [return_source_documents=True]: the retriever's documents are joined
    into the context, the prompt is filled, the model is called once, and
    the documents come back in the retriever's order. *)
Definition RetrievalQA_call (retriever : list (Entry V)) (query_text : string)
  : M St ChainResult :=
  modify (log_event (EvSearch query_text retriever_k)) ;;;
  docs <- lift (similarity_search X retriever query_text retriever_k) ;;
  let context := PyStr.join (nl ++ nl) (map page_content docs) in
  let prompt := prompt_format context query_text in
  modify (log_event (EvLLM prompt)) ;;;
  text <- lift (llm_call X prompt) ;;
  ret {| chain_answer := text; source_documents := docs |}.

(** [{"content": doc.page_content[:150] + "...", "metadata": doc.metadata}] *)
Definition source_info (doc : Document) : SourceInfo :=
  {| content := PyStr.slice_to 150 (page_content doc) ++ "...";
     src_metadata := metadata doc |}.

Definition query (query_text : string) : M St QueryResult :=
  retriever <- get_retriever ;;
  result <- RetrievalQA_call retriever query_text ;;
  let sources := map source_info (source_documents result) in
  ret {| answer := chain_answer result; sources := sources |}.

(** *** agents.QuestionAnsweringAgent.answer_question *)

Definition answer_question (question : string) : M St QueryResult :=
  query question.

(** *** api.process_docs *)

(** [PDF_DIR] is the directory the [RAGSystem] was built with. *)
Definition process_docs : M St Response :=
  try_except
    (st <- get ;;
     result <- process_documents (pdf_dir st) ;;
     initialize_vector_store ;;;
     ret (Resp200 ("Processed " ++ string_of_nat (processed result)
                   ++ " documents") result))
    (fun e => ret (Resp500 (exn_str e))).

End Program.

Arguments generate_file_hash X node read_bytes : assert.

(** ** The rest of api.py and rag_system.py *)

(** The JSON answer of [/api/health]. *)
Record Health : Type :=
  { health_status : string; health_pdf_directory : string; pdf_count : nat }.

(** The JSON answer of [/api/ask], with its status code. *)
Inductive AskResponse : Type :=
| Ask200 (ask_answer : string) (ask_sources : list SourceInfo)
| Ask400 (message : string)
| Ask500 (message : string).

(** The JSON answer of [/api/documents]. *)
Inductive DocumentsResponse : Type :=
| Docs200 (documents : list DocInfo) (pdf_directory : string)
| Docs500 (message : string).

Section Endpoints.

Variable X : Externals.

Abbreviation ESt := (State (Vec X)).

(** *** RAGSystem.get_all_document_content *)

Definition get_all_document_content : M ESt (list Document) :=
  st <- get ;;
  match vector_store st with
  | None => initialize_vector_store X ;;; ret tt
  | Some _ => ret tt
  end ;;;
  st' <- get ;;
  match vector_store st' with
  | None =>
      raise (Exn LibraryError
               "'NoneType' object has no attribute 'similarity_search'")
  | Some h =>
      modify (log_event (EvSearch "important information" 100)) ;;;
      lift (similarity_search X h "important information" 100)
  end.

(** *** api.health_check *)

Definition health_check : M ESt Health :=
  st <- get ;;
  let count := List.length (glob_pdf X st (pdf_dir st)) in
  ret {| health_status := "healthy";
         health_pdf_directory := pdf_dir st;
         pdf_count := count |}.

(** *** api.ask_question *)

(** [request_json] is what [request.json] followed by
    [data.get('query', '')] comes to: an exception, no [query] key, or the
    query string. *)
Definition ask_question (request_json : result (option string))
  : M ESt AskResponse :=
  try_except
    (data <- lift request_json ;;
     let query_text := match data with Some q => q | None => "" end in
     if String.eqb query_text ""
     then ret (Ask400 "Query is required")
     else
       response <- answer_question X query_text ;;
       ret (Ask200 (answer response) (sources response)))
    (fun e => ret (Ask500 (exn_str e))).

(** *** api.get_documents *)

Definition get_documents : M ESt DocumentsResponse :=
  try_except
    (st <- get ;;
     documents <- list_documents X (pdf_dir st) ;;
     ret (Docs200 documents (pdf_dir st)))
    (fun e => ret (Docs500 (exn_str e))).

End Endpoints.

(** ** The rest of utils.py *)

(** [c in s] for one character [c]. *)
Fixpoint char_in (c : ascii) (s : string) : bool :=
  match s with
  | EmptyString => false
  | String d r => Ascii.eqb c d || char_in c r
  end.

Section Sanitize.

(** [c.isalnum()] for one character. *)
Variable isalnum : ascii -> bool.

Definition kept_char (c : ascii) : bool := isalnum c || char_in c "._- ".

(** [''.join(c for c in filename if c.isalnum() or c in '._- ')] *)
Fixpoint sanitize_filename (filename : string) : string :=
  match filename with
  | EmptyString => EmptyString
  | String c r =>
      if kept_char c then String c (sanitize_filename r)
      else sanitize_filename r
  end.

End Sanitize.

(** The text files [save_json_data] and [load_json_data] work on: a file's
    content when [os.path.exists] holds, and what opening it raises, if
    anything. *)
Record TextFiles : Type := {
  text_of : string -> option string;
  open_for_write : string -> option exn;
  open_for_read : string -> option exn
}.

(** The file at [path] now holds [text]. *)
Definition write_text (path text : string) (st : TextFiles) : TextFiles :=
  {| text_of := fun p => if String.eqb p path then Some text else text_of st p;
     open_for_write := open_for_write st;
     open_for_read := open_for_read st |}.

Section Json.

(** JSON-serialisable Python values other than [None]. *)
Variable J : Type.

(** [json.dump(data, f, ensure_ascii=False, indent=2)]: the text that
    reached the file, and the exception that stopped it, if any. *)
Variable json_dump : J -> string * option exn.

(** [json.load(f)] on a file's text; [None] is JSON's [null]. *)
Variable json_load : string -> result (option J).

Definition save_json_data (data : J) (filepath : string)
  : M TextFiles bool :=
  try_except
    (st <- get ;;
     match open_for_write st filepath with
     | Some e => raise e
     | None =>
         modify (write_text filepath "") ;;;
         modify (write_text filepath (fst (json_dump data))) ;;;
         match snd (json_dump data) with
         | Some e => raise e
         | None => ret true
         end
     end)
    (fun _ => ret false).

Definition load_json_data (filepath : string) : M TextFiles (option J) :=
  try_except
    (st <- get ;;
     match text_of st filepath with
     | None => ret None
     | Some text =>
         match open_for_read st filepath with
         | Some e => raise e
         | None => lift (json_load text)
         end
     end)
    (fun _ => ret None).

End Json.

(** ** The text splitter *)

(** langchain's [RecursiveCharacterTextSplitter] as the sources build it:
    [chunk_size] and [chunk_overlap] given, [length_function=len], and the
    class defaults for the rest (separators blank line, newline, space and
    the empty string; [keep_separator=True]; [is_separator_regex=False];
    [strip_whitespace=True]; [add_start_index=False]).  The sources call
    its [split_documents]. *)
Module TextSplitter.

(** [c.isspace()] for one character. *)
Definition isspace (c : ascii) : bool :=
  let n := nat_of_ascii c in
  ((9 <=? n)%nat && (n <=? 13)%nat) || ((28 <=? n)%nat && (n <=? 32)%nat)
  || (n =? 133)%nat || (n =? 160)%nat.

(** [s.lstrip()] *)
Fixpoint lstrip (s : string) : string :=
  match s with
  | EmptyString => EmptyString
  | String c r => if isspace c then lstrip r else s
  end.

(** [s.rstrip()] *)
Fixpoint rstrip (s : string) : string :=
  match s with
  | EmptyString => EmptyString
  | String c r =>
      match rstrip r with
      | EmptyString => if isspace c then EmptyString else String c EmptyString
      | String d r' => String c (String d r')
      end
  end.

(** [s.strip()] *)
Definition strip (s : string) : string := rstrip (lstrip s).

(** [len(s)], as the Python integer. *)
Definition len (s : string) : Z := Z.of_nat (String.length s).

(** [re.search(re.escape(sep), text)] finds something. *)
Fixpoint contains (sep text : string) : bool :=
  String.prefix sep text
  || match text with
     | EmptyString => false
     | String _ r => contains sep r
     end.

(** [re.split("(" + re.escape(sep) + ")", text)] with every separator
    glued to the piece that follows it, as [_split_text_with_regex] does
    for [keep_separator=True]: the text cut before each match of [sep],
    matches taken leftmost and without overlap.  [skip] counts the
    characters of the current match still to pass, [cur] is the piece
    being read. *)
Fixpoint cut_before (sep text : string) (skip : nat) (cur : string)
  : list string :=
  match text with
  | EmptyString => [cur]
  | String c r =>
      match skip with
      | S k => cut_before sep r k (cur ++ String c EmptyString)
      | 0 =>
          if String.prefix sep text
          then cur :: cut_before sep r (String.length sep - 1)
                        (String c EmptyString)
          else cut_before sep r 0 (cur ++ String c EmptyString)
      end
  end.

(** [list(text)] *)
Fixpoint characters (text : string) : list string :=
  match text with
  | EmptyString => []
  | String c r => String c EmptyString :: characters r
  end.

(** [_split_text_with_regex(text, separator, keep_separator=True)] *)
Definition split_text_with_regex (text separator : string) : list string :=
  let splits :=
    if String.eqb separator "" then characters text
    else cut_before separator text 0 EmptyString in
  filter (fun s => negb (String.eqb s "")) splits.

(** [TextSplitter._join_docs] *)
Definition join_docs (docs : list string) (separator : string)
  : option string :=
  let text := strip (PyStr.join separator docs) in
  if String.eqb text "" then None else Some text.

Definition doc_list (doc : option string) : list string :=
  match doc with Some d => [d] | None => [] end.

Definition nonempty {A : Type} (l : list A) : bool :=
  match l with [] => false | _ :: _ => true end.

(** The [while] loop of [_merge_splits], which drops pieces from the
    front of [current_doc]; [current_doc[0]] on an empty list raises. *)
Fixpoint pop_front (cfg : SplitterConfig) (separator_len _len : Z)
  (current_doc : list string) (total : Z) : result (list string * Z) :=
  if (total >? Z.of_nat (chunk_overlap cfg))%Z
     || ((total + _len + (if nonempty current_doc then separator_len else 0)
          >? Z.of_nat (chunk_size cfg))%Z
         && (total >? 0)%Z)
  then
    match current_doc with
    | [] => inl (Exn LibraryError "list index out of range")
    | first :: rest =>
        pop_front cfg separator_len _len rest
          (total - (len first
                    + (if (1 <? List.length current_doc)%nat
                       then separator_len else 0)))%Z
    end
  else inr (current_doc, total).

(** The [for] loop of [_merge_splits] and what follows it. *)
Fixpoint merge_loop (cfg : SplitterConfig) (separator : string)
  (splits docs current_doc : list string) (total : Z)
  : result (list string) :=
  let separator_len := len separator in
  match splits with
  | [] => inr (docs ++ doc_list (join_docs current_doc separator))
  | d :: rest =>
      let _len := len d in
      let added (cur : list string) (tot : Z) : Z :=
        (tot + _len
         + (if (1 <? List.length (cur ++ [d]))%nat then separator_len else 0))%Z
      in
      if (total + _len + (if nonempty current_doc then separator_len else 0)
          >? Z.of_nat (chunk_size cfg))%Z
      then
        if nonempty current_doc
        then
          let docs' := docs ++ doc_list (join_docs current_doc separator) in
          match pop_front cfg separator_len _len current_doc total with
          | inl e => inl e
          | inr (cur, tot) =>
              merge_loop cfg separator rest docs' (cur ++ [d]) (added cur tot)
          end
        else
          merge_loop cfg separator rest docs (current_doc ++ [d])
            (added current_doc total)
      else
        merge_loop cfg separator rest docs (current_doc ++ [d])
          (added current_doc total)
  end.

(** [TextSplitter._merge_splits] *)
Definition merge_splits (cfg : SplitterConfig) (splits : list string)
  (separator : string) : result (list string) :=
  merge_loop cfg separator splits [] [] 0.

(** [if _good_splits: final_chunks.extend(self._merge_splits(...))], the
    separator being empty since the pieces keep theirs. *)
Definition flush (cfg : SplitterConfig) (good final : list string)
  : result (list string) :=
  match good with
  | [] => inr final
  | _ :: _ =>
      match merge_splits cfg good "" with
      | inl e => inl e
      | inr merged => inr (final ++ merged)
      end
  end.

(** The [for s in splits] loop of [_split_text]; [recurse] is the call on
    the remaining separators, absent when there is none left. *)
Fixpoint split_loop (cfg : SplitterConfig)
  (recurse : option (string -> result (list string)))
  (splits good final : list string) : result (list string) :=
  match splits with
  | [] => flush cfg good final
  | s :: rest =>
      if (len s <? Z.of_nat (chunk_size cfg))%Z
      then split_loop cfg recurse rest (good ++ [s]) final
      else
        match flush cfg good final with
        | inl e => inl e
        | inr final' =>
            match match recurse with
                  | None => inr [s]
                  | Some f => f s
                  end with
            | inl e => inl e
            | inr other => split_loop cfg recurse rest [] (final' ++ other)
            end
        end
  end.

(** [RecursiveCharacterTextSplitter._split_text].  The search for the
    separator is the recursion on the list: the first separator that is
    empty or occurs in the text is used, with the ones after it left for
    the pieces that are too long; when none occurs the last one is used;
    [separators[-1]] on an empty list raises. *)
Fixpoint _split_text (cfg : SplitterConfig) (separators : list string)
  (text : string) : result (list string) :=
  match separators with
  | [] => inl (Exn LibraryError "list index out of range")
  | s :: rest =>
      if String.eqb s ""
      then split_loop cfg None (split_text_with_regex text s) [] []
      else if contains s text
      then
        split_loop cfg
          match rest with
          | [] => None
          | _ :: _ => Some (_split_text cfg rest)
          end
          (split_text_with_regex text s) [] []
      else
        match rest with
        | [] => split_loop cfg None (split_text_with_regex text s) [] []
        | _ :: _ => _split_text cfg rest text
        end
  end.

Definition default_separators : list string := [nl ++ nl; nl; " "; ""]%string.

(** [split_text] *)
Definition split_text (cfg : SplitterConfig) (text : string)
  : result (list string) :=
  _split_text cfg default_separators text.

(** [split_documents], through [create_documents]: the chunks of every
    document's text in order, each with a copy of its metadata. *)
Fixpoint split_documents (cfg : SplitterConfig) (documents : list Document)
  : result (list Document) :=
  match documents with
  | [] => inr []
  | doc :: rest =>
      match split_text cfg (page_content doc) with
      | inl e => inl e
      | inr chunks =>
          match split_documents cfg rest with
          | inl e => inl e
          | inr more =>
              inr (map (fun c => {| page_content := c;
                                    metadata := metadata doc |}) chunks
                   ++ more)
          end
      end
  end.

End TextSplitter.

(** ** Stand-ins for the external capabilities *)

Module Doubles.

Fixpoint basename_from (s acc : string) : string :=
  match s with
  | EmptyString => acc
  | String c r =>
      if Ascii.eqb c "/"%char then basename_from r EmptyString
      else basename_from r (acc ++ String c EmptyString)%string
  end.

Definition pdf_magic : list byte := list_byte_of_string "%PDF".

Fixpoint strip_prefix (pre data : list byte) : option (list byte) :=
  match pre, data with
  | [], _ => Some data
  | p :: pre', d :: data' =>
      if Byte.eqb p d then strip_prefix pre' data' else None
  | _ :: _, [] => None
  end.

(** A loader for one-page files: the magic number, then the page's text. *)
Definition load_one_page (path : string) (node : Node)
  : result (list Document) :=
  match node_bytes node with
  | inl e => inl e
  | inr data =>
      match strip_prefix pdf_magic data with
      | None => inl (Exn LibraryError "invalid pdf header")
      | Some body =>
          inr [ {| page_content := string_of_list_byte body;
                   metadata := {| source := path; page := 0 |} |} ]
      end
  end.

Definition env : Externals :=
  {| Vec := nat;
     normpath := fun p => p;
     path_join := fun d f => (d ++ "/" ++ f)%string;
     basename := fun p => basename_from p EmptyString;
     normcase := fun p => p;
     relative_pdf_dir := "/app/data/pdfs";
     load_pdf := load_one_page;
     split_documents := TextSplitter.split_documents;
     embed := fun t => inr (String.length t);
     similarity_search := fun es _ k => inr (firstn k (map entry_doc es));
     llm_call := fun _ => inr "canned answer";
     format_mtime := fun _ => "1970-01-01 00:00:00";
     sha256_hexdigest := string_of_list_byte;
     glob_wild := fun _ _ => [];
     chroma_empty_error := Exn ValueError "no documents to add" |}.

Definition pdf_file (text : string) : Node :=
  {| node_stat := inr {| st_size := Z.of_nat (4 + String.length text);
                         st_mtime := 0 |};
     node_bytes := inr (pdf_magic ++ list_byte_of_string text) |}.

(** A file that is not a PDF inside. *)
Definition corrupt_file : Node :=
  {| node_stat := inr {| st_size := 4; st_mtime := 0 |};
     node_bytes := inr (list_byte_of_string "oops") |}.


Definition one_dir (dir : string) (entries : list (string * Node))
  : string -> option (result (list (string * Node))) :=
  fun p => if String.eqb p dir then Some (inr entries) else None.

(** A system just constructed: no handle, an empty store directory. *)
Definition fresh (entries : list (string * Node)) : State nat :=
  {| fs := one_dir "/data/pdfs" entries;
     pdf_dir := "/data/pdfs";
     store_dir := DirEmpty;
     vector_store := None;
     events := [] |}.

Definition st_one_pdf : State nat :=
  fresh [("a.pdf", pdf_file "Paris is the capital of France.")].

Definition st_good_bad : State nat :=
  fresh [("good.pdf", pdf_file "Paris is the capital of France.");
         ("bad.pdf", corrupt_file)].


End Doubles.

(** ** More stand-ins *)

Module Doubles2.

(** A system whose store directory already holds one persisted entry,
    while the PDF directory holds a newer file. *)
Definition st_persisted : State nat :=
  {| fs := Doubles.one_dir "/data/pdfs"
             [("new.pdf", Doubles.pdf_file "Rome is the capital of Italy.")];
     pdf_dir := "/data/pdfs";
     store_dir :=
       DirPersisted
         [ {| vector := 31;
              entry_doc :=
                {| page_content := "Paris is the capital of France.";
                   metadata := {| source := "/data/pdfs/a.pdf"; page := 0 |} |}
           |} ];
     vector_store := None;
     events := [] |}.

(** The same system with the handle loaded. *)
Definition st_loaded : State nat :=
  set_vector_store
    (Some [ {| vector := 31;
               entry_doc :=
                 {| page_content := "Paris is the capital of France.";
                    metadata := {| source := "/data/pdfs/a.pdf"; page := 0 |} |}
            |} ])
    st_persisted.

(** A system started on a path that does not exist, on a machine where
    the package's data/pdfs directory does. *)
Definition st_relative_only : State nat :=
  {| fs := Doubles.one_dir "/app/data/pdfs"
             [("a.pdf", Doubles.pdf_file "Paris is the capital of France.")];
     pdf_dir := "/nowhere";
     store_dir := DirEmpty;
     vector_store := None;
     events := [] |}.

(** A system whose store directory holds a collection without entries,
    as a build that failed inside [Chroma.from_documents] leaves it. *)
Definition st_empty_store : State nat :=
  {| fs := Doubles.one_dir "/data/pdfs"
             [("blank.pdf", Doubles.pdf_file "   ")];
     pdf_dir := "/data/pdfs";
     store_dir := DirPersisted [];
     vector_store := None;
     events := [] |}.

(** ASCII letters and digits. *)
Definition ascii_isalnum (c : ascii) : bool :=
  let n := nat_of_ascii c in
  ((48 <=? n)%nat && (n <=? 57)%nat)
  || ((65 <=? n)%nat && (n <=? 90)%nat)
  || ((97 <=? n)%nat && (n <=? 122)%nat).

(** A codec for texts: a value is written as it is and read back whole. *)
Definition text_dump (v : string) : string * option exn := (v, None).
Definition text_load (t : string) : result (option string) := inr (Some t).

(** No file yet, every path can be opened. *)
Definition no_files : TextFiles :=
  {| text_of := fun _ => None;
     open_for_write := fun _ => None;
     open_for_read := fun _ => None |}.

End Doubles2.

(** ** Vocabulary of the further statements *)

Definition status_filename (f : FileStatus) : string :=
  match f with FileSuccess n _ _ => n | FileFailed n _ => n end.

(** Every character of [s] passes [p]. *)
Fixpoint string_forall (p : ascii -> bool) (s : string) : bool :=
  match s with
  | EmptyString => true
  | String c r => p c && string_forall p r
  end.

Definition is_search {V : Type} (e : Event V) : bool :=
  match e with EvSearch _ _ => true | _ => false end.

(** ** Vocabulary of the statements *)

Definition add_events {V : Type} (evs : list (Event V)) (st : State V)
  : State V :=
  {| fs := fs st; pdf_dir := pdf_dir st; store_dir := store_dir st;
     vector_store := vector_store st; events := events st ++ evs |}.

Definition is_llm {V : Type} (e : Event V) : bool :=
  match e with EvLLM _ => true | _ => false end.
Definition is_persist {V : Type} (e : Event V) : bool :=
  match e with EvPersist => true | _ => false end.
Definition is_insert {V : Type} (e : Event V) : bool :=
  match e with EvInsert _ => true | _ => false end.
Definition is_load {V : Type} (e : Event V) : bool :=
  match e with EvLoad _ => true | _ => false end.

Definition count_events {V : Type} (p : Event V -> bool)
  (evs : list (Event V)) : nat :=
  List.length (filter p evs).

(** Number of entries the system holds: the handle's, or 0 without one. *)
Definition index_count {V : Type} (st : State V) : nat :=
  match vector_store st with
  | Some entries => List.length entries
  | None => 0
  end.


Section Outcomes.

Variable X : Externals.

(** What loading and splitting one globbed file comes to. *)
Definition file_status (p : string * Node) : FileStatus :=
  let pdf_file := basename X (fst p) in
  match load_pdf X (fst p) (snd p) with
  | inl e => FileFailed pdf_file (exn_str e)
  | inr documents =>
      match split_documents X document_processor_splitter documents with
      | inl e => FileFailed pdf_file (exn_str e)
      | inr chunks =>
          FileSuccess pdf_file (List.length chunks) (List.length documents)
      end
  end.

Definition file_ok (p : string * Node) : bool :=
  match file_status p with FileSuccess _ _ _ => true | FileFailed _ _ => false end.

Definition report_from (acc : Report) (pdf_files : list (string * Node))
  : Report :=
  {| processed := processed acc + List.length (filter file_ok pdf_files);
     failed :=
       failed acc + List.length (filter (fun p => negb (file_ok p)) pdf_files);
     files := files acc ++ map file_status pdf_files |}.

(** Does loading or splitting this directory entry raise? *)
Definition pdf_fails (dir : string) (p : string * Node) : bool :=
  negb (file_ok (path_join X dir (fst p), snd p)).

Definition load_events (pdf_files : list (string * Node))
  : list (Event (Vec X)) :=
  map (fun p => EvLoad (fst p)) pdf_files.

End Outcomes.

(** ** Basic facts *)

Lemma add_events_nil {V : Type} (st : State V) : add_events [] st = st.
Proof. destruct st; unfold add_events; simpl. now rewrite app_nil_r. Qed.

Lemma add_events_app {V : Type} (a b : list (Event V)) (st : State V) :
  add_events b (add_events a st) = add_events (a ++ b) st.
Proof. unfold add_events; simpl. now rewrite app_assoc. Qed.

Lemma log_event_add {V : Type} (e : Event V) (st : State V) :
  log_event e st = add_events [e] st.
Proof. reflexivity. Qed.

Lemma report_from_nil (X : Externals) (acc : Report) :
  report_from X acc [] = acc.
Proof.
  destruct acc; unfold report_from; simpl.
  now rewrite !Nat.add_0_r, app_nil_r.
Qed.

(** ** Small runs *)

Example is_pdf_name_upper : is_pdf_name "Report.PDF" = true.
Proof. reflexivity. Qed.

Example is_pdf_name_other : is_pdf_name "notes.txt" = false.
Proof. reflexivity. Qed.

Example size_kb_of_ties :
  map size_kb_of [128; 384; 1024; 2000]%Z = [12; 38; 100; 195]%Z.
Proof. reflexivity. Qed.

Example split_text_small_window :
  TextSplitter.split_text {| chunk_size := 10; chunk_overlap := 3 |}
    "abcdefghijklmnopqrstuvwxyz"
  = inr ["abcdefghij"; "hijklmnopq"; "opqrstuvwx"; "vwxyz"].
Proof. reflexivity. Qed.

Example split_text_on_spaces :
  TextSplitter.split_text {| chunk_size := 10; chunk_overlap := 3 |}
    "hello world. this is a test of it"
  = inr ["hello"; "world."; "this is a"; "a test of"; "of it"].
Proof. reflexivity. Qed.

Example process_documents_blank_page :
  fst (process_documents Doubles.env "/data/pdfs" Doubles2.st_empty_store) =
  inr {| processed := 1; failed := 0;
         files := [FileSuccess "blank.pdf" 0 1] |}.
Proof. reflexivity. Qed.

Example process_documents_two_files :
  fst (process_documents Doubles.env "/data/pdfs" Doubles.st_good_bad) =
  inr {| processed := 1; failed := 1;
         files := [FileSuccess "good.pdf" 1 1;
                   FileFailed "bad.pdf" "invalid pdf header"] |}.
Proof. reflexivity. Qed.

(** ** The processing loop collects and continues *)

Lemma report_from_cons (X : Externals) (acc : Report) (p : string * Node)
  (rest : list (string * Node)) :
  report_from X acc (p :: rest) = report_from X (report_from X acc [p]) rest.
Proof.
  unfold report_from; simpl.
  destruct (file_ok X p); simpl; f_equal; try lia;
    now rewrite <- app_assoc.
Qed.

Lemma process_one_spec (X : Externals) (acc : Report) (pdf_path : string)
  (node : Node) (st : State (Vec X)) :
  try_except
    (dc <- load_and_split X document_processor_splitter pdf_path node ;;
     ret (report_success acc (basename X pdf_path) (fst dc) (snd dc)))
    (fun e => ret (report_failure acc (basename X pdf_path) e)) st =
  (inr (report_from X acc [(pdf_path, node)]),
   add_events [EvLoad pdf_path] st).
Proof.
  unfold try_except, load_and_split, PyPDFLoader_load, bind, modify, lift, ret.
  rewrite log_event_add.
  unfold report_from, file_ok, file_status; simpl.
  destruct (load_pdf X pdf_path node) as [e|documents]; simpl.
  - unfold report_failure. now rewrite ?Nat.add_0_r.
  - destruct (split_documents X document_processor_splitter documents)
      as [e|chunks]; simpl.
    + unfold report_failure. now rewrite ?Nat.add_0_r.
    + unfold report_success. now rewrite ?Nat.add_0_r.
Qed.

Lemma process_loop_spec (X : Externals) (pdf_files : list (string * Node)) :
  forall (acc : Report) (st : State (Vec X)),
    process_loop X pdf_files acc st =
    (inr (report_from X acc pdf_files),
     add_events (load_events X pdf_files) st).
Proof.
  induction pdf_files as [|[pdf_path node] rest IH]; intros acc st.
  - simpl. unfold ret. now rewrite report_from_nil, add_events_nil.
  - cbn [process_loop]. unfold bind at 1.
    rewrite process_one_spec, IH, add_events_app, <- report_from_cons.
    reflexivity.
Qed.

Lemma resolve_pdf_directory_state (X : Externals) (d : string)
  (st : State (Vec X)) :
  snd (resolve_pdf_directory X d st) = st.
Proof.
  unfold resolve_pdf_directory, bind, get, ret, raise.
  destruct (path_exists st d); [reflexivity|].
  destruct (path_exists st (relative_pdf_dir X)); [reflexivity|].
  destruct (path_exists st raw_path); reflexivity.
Qed.

Lemma resolve_pdf_directory_fs (X : Externals) (d : string)
  (st st2 : State (Vec X)) :
  fs st2 = fs st ->
  fst (resolve_pdf_directory X d st2) = fst (resolve_pdf_directory X d st).
Proof.
  intro Hfs.
  unfold resolve_pdf_directory, bind, get, ret, raise, path_exists.
  rewrite Hfs.
  destruct (fs st d); [reflexivity|].
  destruct (fs st (relative_pdf_dir X)); [reflexivity|].
  destruct (fs st raw_path); reflexivity.
Qed.

Lemma glob_pdf_fs (X : Externals) (d : string) (st st2 : State (Vec X)) :
  fs st2 = fs st -> glob_pdf X st2 d = glob_pdf X st d.
Proof. intro Hfs. unfold glob_pdf. now rewrite Hfs. Qed.

Lemma process_documents_spec (X : Externals) (pdf_directory : string)
  (st : State (Vec X)) :
  process_documents X pdf_directory st =
  match fst (resolve_pdf_directory X (normpath X pdf_directory) st) with
  | inl e => (inl e, st)
  | inr d =>
      (inr (report_from X empty_report (glob_pdf X st d)),
       add_events (load_events X (glob_pdf X st d)) st)
  end.
Proof.
  unfold process_documents, bind at 1.
  pose proof (resolve_pdf_directory_state X (normpath X pdf_directory) st) as Hs.
  destruct (resolve_pdf_directory X (normpath X pdf_directory) st) as [[e|d] st'];
    simpl in Hs |- *; subst st'; [reflexivity|].
  unfold bind, get.
  destruct (glob_pdf X st d) as [|p rest] eqn:Hg.
  - unfold ret, load_events. cbn [map].
    now rewrite report_from_nil, add_events_nil.
  - apply process_loop_spec.
Qed.

Lemma load_events_are_loads (X : Externals) (pdf_files : list (string * Node)) :
  forallb is_load (load_events X pdf_files) = true.
Proof. induction pdf_files; simpl; auto. Qed.

(** C10 [process_documents] is framed away from the Vector Index: the
    handle and the store directory are the same before and after, its only
    external calls are PDF loads, the report counts the files whose load
    and split succeeded (nothing is inserted), and the report is the same
    whatever the index holds, as long as the file system is the same. *)
Theorem process_documents_leaves_index (X : Externals)
  (pdf_directory : string) (st : State (Vec X)) :
  let out := process_documents X pdf_directory st in
  vector_store (snd out) = vector_store st /\
  store_dir (snd out) = store_dir st /\
  (exists loads,
      events (snd out) = events st ++ loads /\
      forallb is_load loads = true /\
      count_events is_insert loads = 0 /\
      count_events is_persist loads = 0) /\
  (forall report,
      fst out = inr report ->
      exists d,
        fst (resolve_pdf_directory X (normpath X pdf_directory) st) = inr d /\
        processed report = List.length (filter (file_ok X) (glob_pdf X st d)) /\
        failed report =
          List.length (filter (fun p => negb (file_ok X p)) (glob_pdf X st d)) /\
        files report = map (file_status X) (glob_pdf X st d)) /\
  (forall st2 : State (Vec X),
      fs st2 = fs st ->
      fst (process_documents X pdf_directory st2) = fst out).
Proof.
  cbv zeta.
  assert (Hnone : forall l : list (Event (Vec X)),
             forallb is_load l = true ->
             count_events is_insert l = 0 /\ count_events is_persist l = 0).
  { unfold count_events. induction l as [|e l IHl]; simpl; [auto|].
    intro H. apply andb_true_iff in H as [He Hl].
    destruct e; simpl in *; try discriminate; auto. }
  repeat split.
  - rewrite process_documents_spec.
    destruct (fst (resolve_pdf_directory X (normpath X pdf_directory) st));
      reflexivity.
  - rewrite process_documents_spec.
    destruct (fst (resolve_pdf_directory X (normpath X pdf_directory) st));
      reflexivity.
  - rewrite process_documents_spec.
    destruct (fst (resolve_pdf_directory X (normpath X pdf_directory) st))
      as [e|d].
    + exists []. simpl. rewrite app_nil_r. repeat split; reflexivity.
    + exists (load_events X (glob_pdf X st d)). simpl.
      pose proof (load_events_are_loads X (glob_pdf X st d)) as Hl.
      destruct (Hnone _ Hl). auto.
  - intros report. rewrite process_documents_spec.
    destruct (fst (resolve_pdf_directory X (normpath X pdf_directory) st))
      as [e|d]; simpl; [discriminate|].
    intro H. injection H as <-. exists d. repeat split.
  - intros st2 Hfs. rewrite !process_documents_spec.
    rewrite (resolve_pdf_directory_fs X _ st st2 Hfs).
    destruct (fst (resolve_pdf_directory X (normpath X pdf_directory) st))
      as [e|d]; simpl; [reflexivity|].
    now rewrite (glob_pdf_fs X d st st2 Hfs).
Qed.

(** ** utils.py: hashing and listing *)

Lemma takeN_firstn {A : Type} (l : list A) :
  forall n : N, PyStr.takeN n l = firstn (N.to_nat n) l.
Proof.
  induction l as [|x r IH]; intro n; simpl.
  - now destruct (N.to_nat n).
  - destruct (N.eqb_spec n 0) as [->|Hn]; [reflexivity|].
    rewrite IH.
    replace (N.to_nat n) with (S (N.to_nat (N.pred n))) by lia.
    reflexivity.
Qed.

Lemma takeN_all {A : Type} (l : list A) (n : N) :
  (N.of_nat (List.length l) <= n)%N -> PyStr.takeN n l = l.
Proof.
  intro H. rewrite takeN_firstn. apply firstn_all2. lia.
Qed.

Lemma takeN_app {A : Type} (pre tail : list A) (n : N) :
  N.of_nat (List.length pre) = n -> PyStr.takeN n (pre ++ tail) = pre.
Proof.
  intro H. rewrite takeN_firstn.
  replace (N.to_nat n) with (List.length pre + 0) by lia.
  rewrite firstn_app_2. simpl. apply app_nil_r.
Qed.

(** C9 The content hash is the digest of the first 1MB (1024*1024 bytes)
    only: it is the digest of that prefix, two files that agree on it get
    the same hash (so do two files that share a 1MB head and differ in the
    tail), and a file of at most 1MB is hashed whole. *)
Theorem generate_file_hash_first_megabyte (X : Externals)
  (n1 n2 : Node) (d1 d2 : list byte)
  (H1 : node_bytes n1 = inr d1) (H2 : node_bytes n2 = inr d2) :
  default_read_bytes = 1048576%N /\
  generate_file_hash X n1 default_read_bytes =
    inr (sha256_hexdigest X (PyStr.takeN 1048576 d1)) /\
  (PyStr.takeN 1048576 d1 = PyStr.takeN 1048576 d2 ->
   generate_file_hash X n1 default_read_bytes =
   generate_file_hash X n2 default_read_bytes) /\
  (forall head t1 t2 : list byte,
      N.of_nat (List.length head) = 1048576%N ->
      d1 = head ++ t1 -> d2 = head ++ t2 ->
      generate_file_hash X n1 default_read_bytes =
      generate_file_hash X n2 default_read_bytes) /\
  ((N.of_nat (List.length d1) <= 1048576)%N ->
   generate_file_hash X n1 default_read_bytes = inr (sha256_hexdigest X d1)).
Proof.
  assert (Hd : default_read_bytes = 1048576%N) by reflexivity.
  unfold generate_file_hash. rewrite H1, H2, Hd.
  split; [reflexivity|]. split; [reflexivity|]. split; [|split].
  - intros ->. reflexivity.
  - intros head t1 t2 Hlen -> ->. now rewrite !takeN_app by assumption.
  - intro Hlen. now rewrite takeN_all.
Qed.

Lemma generate_file_hash_first_megabyte_witness :
  generate_file_hash Doubles.env (Doubles.pdf_file "abc") default_read_bytes =
    inr "%PDFabc" /\
  generate_file_hash Doubles.env (Doubles.pdf_file "abc") default_read_bytes =
  generate_file_hash Doubles.env
    {| node_stat := inl (Exn OSError "stat failed");
       node_bytes := inr (list_byte_of_string "%PDFabc") |}
    default_read_bytes.
Proof.
  destruct (generate_file_hash_first_megabyte Doubles.env
              (Doubles.pdf_file "abc")
              {| node_stat := inl (Exn OSError "stat failed");
                 node_bytes := inr (list_byte_of_string "%PDFabc") |}
              (list_byte_of_string "%PDFabc") (list_byte_of_string "%PDFabc")
              eq_refl eq_refl) as (_ & _ & Hsame & _ & Hwhole).
  split.
  - apply Hwhole. vm_compute. discriminate.
  - apply Hsame. reflexivity.
Defined.

(** The same cut, seen on a small [read_bytes]: two files that differ
    after the fourth byte have one hash. *)
Example generate_file_hash_tail_ignored :
  generate_file_hash Doubles.env (Doubles.pdf_file "abc") 4 =
  generate_file_hash Doubles.env (Doubles.pdf_file "xyz") 4.
Proof. reflexivity. Qed.

Lemma list_documents_run (X : Externals) (pdf_directory : string)
  (st : State (Vec X)) :
  list_documents X pdf_directory st =
  (match fs st pdf_directory with
   | None => inr []
   | Some (inl e) => inl e
   | Some (inr entries) =>
       inr (map (fun e => document_info X (fst e) (snd e))
              (filter (fun e => is_pdf_name (fst e)) entries))
   end, st).
Proof.
  unfold list_documents, bind, get, ret, lift.
  destruct (fs st pdf_directory) as [[e|entries]|]; reflexivity.
Qed.






(** ** rag_system.py: building the index *)

Lemma count_events_app {V : Type} (p : Event V -> bool)
  (a b : list (Event V)) :
  count_events p (a ++ b) = count_events p a + count_events p b.
Proof. unfold count_events. now rewrite filter_app, length_app. Qed.

Lemma loads_count {V : Type} (l : list (Event V)) :
  forallb is_load l = true ->
  count_events is_insert l = 0 /\ count_events is_persist l = 0
  /\ count_events is_llm l = 0.
Proof.
  unfold count_events. induction l as [|e l IH]; simpl; [auto|].
  intro H. apply andb_true_iff in H as [He Hl].
  destruct e; simpl in *; try discriminate; auto.
Qed.

Lemma load_all_chunks_events (X : Externals) (dir : string)
  (pdf_files : list (string * Node)) :
  forall (documents : list Document) (st : State (Vec X)),
  exists loads,
    snd (load_all_chunks X dir pdf_files documents st) = add_events loads st
    /\ forallb is_load loads = true.
Proof.
  induction pdf_files as [|[pdf_file node] rest IH]; intros documents st.
  - exists []. simpl. now rewrite add_events_nil.
  - cbn [load_all_chunks].
    unfold bind at 1. unfold PyPDFLoader_load, bind, modify, lift.
    rewrite log_event_add.
    destruct (load_pdf X (path_join X dir pdf_file) node) as [e|pages].
    + exists [EvLoad (path_join X dir pdf_file)]. auto.
    + destruct (split_documents X rag_system_splitter pages) as [e|chunks].
      * exists [EvLoad (path_join X dir pdf_file)]. auto.
      * destruct (IH (documents ++ chunks)
                    (add_events [EvLoad (path_join X dir pdf_file)] st))
          as (loads & Hs & Hl).
        exists (EvLoad (path_join X dir pdf_file) :: loads).
        rewrite Hs, add_events_app. auto.
Qed.

Lemma embed_documents_docs (X : Externals) (docs : list Document) :
  forall entries,
    embed_documents X docs = inr entries -> map entry_doc entries = docs.
Proof.
  induction docs as [|d rest IH]; simpl; intros entries H.
  - now injection H as <-.
  - destruct (embed X (page_content d)); [discriminate|].
    destruct (embed_documents X rest) as [|es]; [discriminate|].
    injection H as <-. simpl. now rewrite (IH es eq_refl).
Qed.

(** The ways a run of [initialize_vector_store] can go: the store is
    reopened; the run raises before any store exists; it raises inside
    [Chroma.from_documents], which has created the store by then; or it
    builds and persists the index. *)
Lemma initialize_vector_store_cases (X : Externals) (st : State (Vec X)) :
  (exists persisted,
      store_dir st = DirPersisted persisted /\
      initialize_vector_store X st =
      (inr true,
       {| fs := fs st; pdf_dir := pdf_dir st; store_dir := store_dir st;
          vector_store := Some persisted;
          events := events st ++ [EvOpenStore] |}))
  \/
  (exists e loads,
      store_dir st = DirEmpty /\
      forallb is_load loads = true /\
      initialize_vector_store X st = (inl e, add_events loads st) /\
      (fs st (pdf_dir st) = None ->
       e = Exn FileNotFoundError ("PDF directory not found: " ++ pdf_dir st)
       /\ loads = []) /\
      (forall e', fs st (pdf_dir st) = Some (inl e') -> e = e' /\ loads = []) /\
      (forall entries,
          fs st (pdf_dir st) = Some (inr entries) ->
          filter (fun p => is_pdf_name (fst p)) entries = [] ->
          e = Exn ValueError ("No PDF files found in " ++ pdf_dir st)
          /\ loads = []) /\
      (forall entries documents,
          fs st (pdf_dir st) = Some (inr entries) ->
          fst (load_all_chunks X (pdf_dir st)
                 (filter (fun p => is_pdf_name (fst p)) entries) [] st)
            = inr documents ->
          filter (fun p => is_pdf_name (fst p)) entries = []))
  \/
  (exists e entries loads documents,
      store_dir st = DirEmpty /\
      fs st (pdf_dir st) = Some (inr entries) /\
      filter (fun p => is_pdf_name (fst p)) entries <> [] /\
      forallb is_load loads = true /\
      fst (load_all_chunks X (pdf_dir st)
             (filter (fun p => is_pdf_name (fst p)) entries) [] st)
        = inr documents /\
      (documents = [] /\ e = chroma_empty_error X
       \/ documents <> [] /\ embed_documents X documents = inl e) /\
      initialize_vector_store X st =
      (inl e, set_store_dir (DirPersisted []) (add_events loads st)))
  \/
  (exists entries loads documents inserted,
      store_dir st = DirEmpty /\
      fs st (pdf_dir st) = Some (inr entries) /\
      filter (fun p => is_pdf_name (fst p)) entries <> [] /\
      forallb is_load loads = true /\
      fst (load_all_chunks X (pdf_dir st)
             (filter (fun p => is_pdf_name (fst p)) entries) [] st)
        = inr documents /\
      embed_documents X documents = inr inserted /\
      initialize_vector_store X st =
      (inr true,
       {| fs := fs st; pdf_dir := pdf_dir st;
          store_dir := DirPersisted inserted;
          vector_store := Some inserted;
          events := events st ++ loads ++ [EvInsert inserted; EvPersist] |})).
Proof.
  unfold initialize_vector_store, try_except, Chroma_from_documents,
    Chroma_open, persist, bind, get, raise, ret, modify, lift.
  cbv beta iota.
  destruct (store_dir st) as [|persisted] eqn:Hsd.
  - destruct (fs st (pdf_dir st)) as [[e0|entries]|] eqn:Hfs.
    + right; left. exists e0, []. rewrite add_events_nil.
      split; [reflexivity|]. split; [reflexivity|]. split; [reflexivity|].
      split; [discriminate|]. split.
      * intros e' H. injection H as <-. auto.
      * split; discriminate.
    + destruct (filter (fun e => is_pdf_name (fst e)) entries)
        as [|p pdfs] eqn:Hpdf.
      * right; left.
        exists (Exn ValueError ("No PDF files found in " ++ pdf_dir st)), [].
        rewrite add_events_nil.
        split; [reflexivity|]. split; [reflexivity|]. split; [reflexivity|].
        split; [discriminate|]. split; [discriminate|].
        split; [intros; split; reflexivity|].
        intros entries' documents H _. injection H as <-. exact Hpdf.
      * destruct (load_all_chunks_events X (pdf_dir st) (p :: pdfs) [] st)
          as (loads & Hs & Hl).
        destruct (load_all_chunks X (pdf_dir st) (p :: pdfs) [] st)
          as [[e|documents] s1] eqn:Hrun; simpl in Hs; subst s1.
        -- right; left. exists e, loads.
           split; [reflexivity|]. split; [exact Hl|]. split; [reflexivity|].
           split; [discriminate|]. split; [discriminate|]. split.
           ++ intros entries' Heq. injection Heq as <-. congruence.
           ++ intros entries' documents Heq. injection Heq as <-.
              rewrite Hpdf, Hrun. discriminate.
        -- destruct documents as [|d0 ds].
           ++ right; right; left.
              exists (chroma_empty_error X), entries, loads, [].
              split; [reflexivity|]. split; [reflexivity|].
              split; [rewrite Hpdf; discriminate|]. split; [exact Hl|].
              split; [rewrite Hpdf, Hrun; reflexivity|].
              split; [left; auto|]. reflexivity.
           ++ destruct (embed_documents X (d0 :: ds))
                as [e|inserted] eqn:Hemb.
              ** right; right; left. exists e, entries, loads, (d0 :: ds).
                 split; [reflexivity|]. split; [reflexivity|].
                 split; [rewrite Hpdf; discriminate|]. split; [exact Hl|].
                 split; [rewrite Hpdf, Hrun; reflexivity|].
                 split; [right; split; [discriminate|exact Hemb]|].
                 reflexivity.
              ** right; right; right.
                 exists entries, loads, (d0 :: ds), inserted.
                 split; [reflexivity|]. split; [reflexivity|].
                 split; [rewrite Hpdf; discriminate|].
                 split; [exact Hl|].
                 split; [rewrite Hpdf, Hrun; reflexivity|].
                 split; [exact Hemb|].
                 unfold set_store_dir, log_event, set_vector_store, add_events.
                 simpl. now rewrite <- !app_assoc.
    + right; left.
      exists (Exn FileNotFoundError
                ("PDF directory not found: " ++ pdf_dir st)), [].
      rewrite add_events_nil.
      split; [reflexivity|]. split; [reflexivity|]. split; [reflexivity|].
      split; [intros; split; reflexivity|].
      split; [discriminate|]. split; discriminate.
  - left. exists persisted. split; [reflexivity|].
    unfold set_vector_store, log_event. simpl. now rewrite Hsd.
Qed.

(** C4 In a run of [initialize_vector_store], [persist()] is called at
    most once; a run that inserts nothing never calls it; a run that
    inserts makes one insertion, of every chunk of every PDF, and then one
    [persist()] as its last call: the calls before it are the per-document
    loads, with no [persist()] among them. *)
Theorem persist_once_at_end_of_run (X : Externals) (st : State (Vec X)) :
  let out := initialize_vector_store X st in
  exists new : list (Event (Vec X)),
    events (snd out) = events st ++ new /\
    count_events is_persist new <= 1 /\
    (count_events is_insert new = 0 -> count_events is_persist new = 0) /\
    (count_events is_insert new <> 0 ->
     exists entries loads documents inserted,
       new = loads ++ [EvInsert inserted; EvPersist] /\
       forallb is_load loads = true /\
       count_events is_persist loads = 0 /\
       count_events is_insert new = 1 /\
       count_events is_persist new = 1 /\
       fs st (pdf_dir st) = Some (inr entries) /\
       fst (load_all_chunks X (pdf_dir st)
              (filter (fun p => is_pdf_name (fst p)) entries) [] st)
         = inr documents /\
       map entry_doc inserted = documents /\
       fst out = inr true /\
       vector_store (snd out) = Some inserted /\
       store_dir (snd out) = DirPersisted inserted).
Proof.
  cbv zeta.
  destruct (initialize_vector_store_cases X st)
    as [(persisted & Hsd & Hrun)
       |[(e & loads & Hsd & Hl & Hrun & _)
        |[(e & entries & loads & documents & Hsd & Hfs & Hne & Hl & Hdocs
           & _ & Hrun)
         |(entries & loads & documents & inserted
           & Hsd & Hfs & Hne & Hl & Hdocs & Hemb & Hrun)]]];
    rewrite Hrun; simpl.
  - exists [EvOpenStore]. split; [reflexivity|].
    split; [cbv; lia|]. split; [reflexivity|]. intro H. now elim H.
  - exists loads. destruct (loads_count loads Hl) as (Hi & Hp & _).
    split; [reflexivity|]. split; [lia|]. split; [auto|].
    intro H. now elim H.
  - exists loads. destruct (loads_count loads Hl) as (Hi & Hp & _).
    split; [reflexivity|]. split; [lia|]. split; [auto|].
    intro H. now elim H.
  - exists (loads ++ [EvInsert inserted; EvPersist]).
    destruct (loads_count loads Hl) as (Hi & Hp & _).
    assert (Hci : count_events is_insert
                    (loads ++ [EvInsert inserted; EvPersist]) = 1).
    { rewrite count_events_app, Hi. reflexivity. }
    assert (Hcp : count_events is_persist
                    (loads ++ [EvInsert inserted; EvPersist]) = 1).
    { rewrite count_events_app, Hp. reflexivity. }
    split; [reflexivity|]. split; [lia|]. split; [intro; lia|].
    intros _. exists entries, loads, documents, inserted.
    repeat split; auto.
    now apply embed_documents_docs.
Qed.

Lemma persist_once_at_end_of_run_witness :
  exists new : list (Event nat),
    events (snd (initialize_vector_store Doubles.env Doubles.st_one_pdf))
      = [] ++ new /\
    count_events is_insert new = 1 /\
    count_events is_persist new = 1.
Proof.
  destruct (persist_once_at_end_of_run Doubles.env Doubles.st_one_pdf)
    as (new & Hev & _ & _ & Hins).
  exists new. split; [exact Hev|].
  assert (Hnz : count_events is_insert new <> 0).
  { vm_compute in Hev. subst new. vm_compute. discriminate. }
  destruct (Hins Hnz) as (_ & _ & _ & _ & _ & _ & _ & Hi & Hp & _).
  split; assumption.
Defined.

(** C5, as the code has it: after a run of [initialize_vector_store] that
    succeeded, the store directory holds the persisted collection, so a
    second run over the same corpus only reopens it: nothing is inserted,
    and the handle, the directory and the entry count are what they were
    after the first run. *)
Theorem reingest_reopens_persisted_index (X : Externals)
  (st s1 : State (Vec X)) (b : bool)
  (Hfirst : initialize_vector_store X st = (inr b, s1)) :
  exists entries,
    vector_store s1 = Some entries /\
    store_dir s1 = DirPersisted entries /\
    fst (initialize_vector_store X s1) = inr true /\
    events (snd (initialize_vector_store X s1)) = events s1 ++ [EvOpenStore] /\
    vector_store (snd (initialize_vector_store X s1)) = Some entries /\
    store_dir (snd (initialize_vector_store X s1)) = DirPersisted entries /\
    index_count (snd (initialize_vector_store X s1)) = index_count s1.
Proof.
  assert (Hs1 : exists entries,
             vector_store s1 = Some entries /\
             store_dir s1 = DirPersisted entries).
  { destruct (initialize_vector_store_cases X st)
      as [(persisted & Hsd & Hrun)
         |[(e & loads & _ & _ & Hrun & _)
          |[(e & ? & ? & ? & _ & _ & _ & _ & _ & _ & Hrun)
           |(entries & loads & documents & inserted & _ & _ & _ & _ & _ & _
             & Hrun)]]];
      rewrite Hrun in Hfirst; try discriminate;
      injection Hfirst as _ <-; simpl; eauto. }
  destruct Hs1 as (entries & Hvs & Hsd). exists entries.
  split; [exact Hvs|]. split; [exact Hsd|].
  destruct (initialize_vector_store_cases X s1)
    as [(persisted & Hsd' & Hrun)
       |[(e & loads & Hsd' & _)
        |[(? & ? & ? & ? & Hsd' & _)
         |(? & ? & ? & ? & Hsd' & _)]]];
    try congruence.
  rewrite Hrun; simpl. unfold index_count; simpl. rewrite Hvs.
  assert (persisted = entries) by congruence. subst persisted.
  repeat split; auto.
Qed.

Lemma reingest_reopens_persisted_index_witness :
  exists entries,
    vector_store (snd (initialize_vector_store Doubles.env Doubles.st_one_pdf))
      = Some entries /\
    index_count
      (snd (initialize_vector_store Doubles.env
              (snd (initialize_vector_store Doubles.env Doubles.st_one_pdf))))
    = index_count
        (snd (initialize_vector_store Doubles.env Doubles.st_one_pdf)).
Proof.
  destruct (reingest_reopens_persisted_index Doubles.env Doubles.st_one_pdf
              (snd (initialize_vector_store Doubles.env Doubles.st_one_pdf))
              true eq_refl)
    as (entries & Hvs & _ & _ & _ & _ & _ & Hcount).
  exists entries. split; assumption.
Defined.

(** C5 as stated fails: a second ingestion of a one-chunk corpus leaves
    one entry, not two. *)
Lemma reingest_count_not_doubled :
  let s1 := snd (initialize_vector_store Doubles.env Doubles.st_one_pdf) in
  let s2 := snd (initialize_vector_store Doubles.env s1) in
  fst (initialize_vector_store Doubles.env Doubles.st_one_pdf) = inr true /\
  fst (initialize_vector_store Doubles.env s1) = inr true /\
  index_count s1 = 1 /\
  index_count s2 = 1 /\
  index_count s2 <> 2 * index_count s1.
Proof. vm_compute. repeat split. discriminate. Qed.

(** ** rag_system.py: answering *)

Lemma get_retriever_handle (X : Externals) (st s1 : State (Vec X))
  (h : list (Entry (Vec X))) :
  get_retriever X st = (inr h, s1) -> vector_store s1 = Some h.
Proof.
  unfold get_retriever, bind, get, ret, raise. cbv beta iota.
  destruct (vector_store st) as [h0|] eqn:Hvs.
  - intro H. injection H as <- <-. exact Hvs.
  - destruct (initialize_vector_store X st) as [[e|b] s'];
      [discriminate|].
    destruct (vector_store s') as [h1|] eqn:Hvs'; [|discriminate].
    intro H. injection H as <- <-. exact Hvs'.
Qed.



Lemma length_append (a b : string) :
  String.length (a ++ b) = String.length a + String.length b.
Proof. induction a as [|c a IH]; simpl; auto. Qed.



(** What [query] comes to once a handle is loaded. *)
Lemma query_with_handle_run (X : Externals) (query_text : string)
  (st : State (Vec X)) (h : list (Entry (Vec X))) :
  vector_store st = Some h ->
  query X query_text st =
  match similarity_search X h query_text 5 with
  | inl e => (inl e, add_events [EvSearch query_text 5] st)
  | inr docs =>
      let prompt :=
        prompt_format (PyStr.join (nl ++ nl) (map page_content docs))
          query_text in
      match llm_call X prompt with
      | inl e =>
          (inl e, add_events [EvSearch query_text 5; EvLLM prompt] st)
      | inr text =>
          (inr {| answer := text; sources := map source_info docs |},
           add_events [EvSearch query_text 5; EvLLM prompt] st)
      end
  end.
Proof.
  intro Hh.
  unfold query, get_retriever, RetrievalQA_call, bind, get, ret, modify, lift.
  cbv beta iota. rewrite Hh. cbv beta iota. unfold retriever_k.
  destruct (similarity_search X h query_text 5) as [e|docs]; [reflexivity|].
  cbv zeta. rewrite !log_event_add, add_events_app. simpl app.
  destruct (llm_call X _) as [e|text]; reflexivity.
Qed.

(** A query without a handle on a populated store directory reopens the
    store and goes on as a query with that handle. *)
Lemma query_reopens_store (X : Externals) (query_text : string)
  (st : State (Vec X)) (persisted : list (Entry (Vec X))) :
  vector_store st = None ->
  store_dir st = DirPersisted persisted ->
  query X query_text st =
  query X query_text
    {| fs := fs st; pdf_dir := pdf_dir st; store_dir := store_dir st;
       vector_store := Some persisted;
       events := events st ++ [EvOpenStore] |}.
Proof.
  intros Hh Hsd.
  destruct (initialize_vector_store_cases X st)
    as [(persisted' & Hsd' & Hrun)
       |[(? & ? & Hsd' & _)
        |[(? & ? & ? & ? & Hsd' & _)
         |(? & ? & ? & ? & Hsd' & _)]]];
    try congruence.
  assert (persisted' = persisted) by congruence. subst persisted'.
  unfold query, get_retriever.
  unfold bind at 1 3. unfold bind at 1 2. unfold get.
  cbv beta iota. rewrite Hh.
  unfold bind at 1. rewrite Hrun. reflexivity.
Qed.

(** C1, as the code has it: [query] has no empty-index guard, and no
    [NoDocumentsIndexedError] exists.  Asked on an index that was never
    built (no handle, empty store directory) while the PDF directory is
    missing, cannot be listed or holds no PDF, it raises
    [FileNotFoundError], the listing's exception or [ValueError], leaves
    the state as it was and does not call the LLM.  Asked on an index that
    exists with zero entries, loaded or only persisted, it searches the
    empty index with k = 5; when the search raises, so does the query,
    without an LLM call; otherwise the LLM is called exactly once and its
    reply is the answer returned. *)
Theorem query_on_zero_entry_index (X : Externals) (query_text : string)
  (st : State (Vec X)) :
  (vector_store st = None ->
   store_dir st = DirEmpty ->
   match fs st (pdf_dir st) with
   | Some (inr entries) => filter (fun p => is_pdf_name (fst p)) entries = []
   | _ => True
   end ->
   query X query_text st =
   (inl match fs st (pdf_dir st) with
        | None =>
            Exn FileNotFoundError ("PDF directory not found: " ++ pdf_dir st)
        | Some (inl e) => e
        | Some (inr _) =>
            Exn ValueError ("No PDF files found in " ++ pdf_dir st)
        end, st)) /\
  (vector_store st = Some []
   \/ vector_store st = None /\ store_dir st = DirPersisted [] ->
   vector_store (snd (query X query_text st)) = Some [] /\
   store_dir (snd (query X query_text st)) = store_dir st /\
   match similarity_search X [] query_text 5 with
   | inl e =>
       fst (query X query_text st) = inl e /\
       count_events is_llm (events (snd (query X query_text st)))
         = count_events is_llm (events st)
   | inr docs =>
       count_events is_llm (events (snd (query X query_text st)))
         = count_events is_llm (events st) + 1 /\
       fst (query X query_text st)
         = match llm_call X
                   (prompt_format
                      (PyStr.join (nl ++ nl) (map page_content docs))
                      query_text) with
           | inl e => inl e
           | inr text =>
               inr {| answer := text; sources := map source_info docs |}
           end
   end).
Proof.
  split.
  - intros Hhandle Hstore Hnopdf.
    assert (Hq : forall e, initialize_vector_store X st = (inl e, st) ->
                           query X query_text st = (inl e, st)).
    { intros e Hrun. unfold query, get_retriever, bind, get.
      cbv beta iota. rewrite Hhandle, Hrun. reflexivity. }
    destruct (initialize_vector_store_cases X st)
      as [(persisted & Hsd & _)
         |[(e & loads & _ & _ & Hrun & Hnone & Hbad & Hsome & _)
          |[(e & entries & ? & ? & _ & Hfs & Hne & _)
           |(entries & ? & ? & ? & _ & Hfs & Hne & _)]]].
    + congruence.
    + destruct (fs st (pdf_dir st)) as [[e0|entries]|].
      * destruct (Hbad e0 eq_refl) as [-> ->].
        rewrite add_events_nil in Hrun. now apply Hq.
      * destruct (Hsome entries eq_refl Hnopdf) as [-> ->].
        rewrite add_events_nil in Hrun. now apply Hq.
      * destruct (Hnone eq_refl) as [-> ->].
        rewrite add_events_nil in Hrun. now apply Hq.
    + rewrite Hfs in Hnopdf. contradiction.
    + rewrite Hfs in Hnopdf. contradiction.
  - assert (Hloaded : forall s : State (Vec X),
               vector_store s = Some [] ->
               vector_store (snd (query X query_text s)) = Some [] /\
               store_dir (snd (query X query_text s)) = store_dir s /\
               match similarity_search X [] query_text 5 with
               | inl e =>
                   fst (query X query_text s) = inl e /\
                   count_events is_llm (events (snd (query X query_text s)))
                     = count_events is_llm (events s)
               | inr docs =>
                   count_events is_llm (events (snd (query X query_text s)))
                     = count_events is_llm (events s) + 1 /\
                   fst (query X query_text s)
                     = match llm_call X
                               (prompt_format
                                  (PyStr.join (nl ++ nl)
                                     (map page_content docs))
                                  query_text) with
                       | inl e => inl e
                       | inr text =>
                           inr {| answer := text;
                                  sources := map source_info docs |}
                       end
               end).
    { intros s Hs. rewrite (query_with_handle_run X query_text s [] Hs).
      destruct (similarity_search X [] query_text 5) as [e|docs]; cbv zeta.
      - simpl. rewrite count_events_app. unfold count_events at 2. simpl.
        repeat split; auto; lia.
      - destruct (llm_call X _) as [e|text]; simpl;
          rewrite count_events_app; unfold count_events at 2; simpl;
          repeat split; auto. }
    intros [Hs|[Hnone Hsd]]; [now apply Hloaded|].
    rewrite (query_reopens_store X query_text st [] Hnone Hsd).
    match goal with
    | |- context [query X query_text ?s1] =>
        destruct (Hloaded s1 eq_refl) as (Hvs & Hdir & Hrest)
    end.
    split; [exact Hvs|]. split; [exact Hdir|].
    assert (Hc : count_events is_llm (events st ++ [EvOpenStore])
                 = count_events is_llm (events st)).
    { rewrite count_events_app. unfold count_events. simpl. lia. }
    cbn [events] in Hrest.
    destruct (similarity_search X [] query_text 5) as [e|docs];
      rewrite Hc in Hrest; exact Hrest.
Qed.

Lemma query_on_zero_entry_index_witness :
  (exists e,
      query Doubles.env "What is the capital?"
        (Doubles.fresh [("notes.txt", Doubles.corrupt_file)])
      = (inl e, Doubles.fresh [("notes.txt", Doubles.corrupt_file)])
      /\ exn_cls e = ValueError) /\
  count_events is_llm
    (events (snd (query Doubles.env "What is the capital?"
                    Doubles2.st_empty_store))) = 1.
Proof.
  split.
  - eexists. split.
    + apply (proj1 (query_on_zero_entry_index Doubles.env
                      "What is the capital?"
                      (Doubles.fresh [("notes.txt", Doubles.corrupt_file)])));
        reflexivity.
    + reflexivity.
  - destruct (proj2 (query_on_zero_entry_index Doubles.env
                       "What is the capital?" Doubles2.st_empty_store)
                (or_intror (conj eq_refl eq_refl)))
      as (_ & _ & Hllm & _).
    exact Hllm.
Defined.

(** C1 as stated fails: asked on a system just constructed, with one PDF
    in its directory, the query builds the index, calls the LLM once and
    answers. *)
Lemma query_on_fresh_index_answers :
  vector_store Doubles.st_one_pdf = None /\
  store_dir Doubles.st_one_pdf = DirEmpty /\
  index_count Doubles.st_one_pdf = 0 /\
  is_ok (fst (query Doubles.env "What is the capital?" Doubles.st_one_pdf))
    = true /\
  count_events is_llm
    (events (snd (query Doubles.env "What is the capital?"
                    Doubles.st_one_pdf))) = 1.
Proof. vm_compute. repeat split. Qed.

(** The loop of [initialize_vector_store] has no [try]: the first file
    that fails ends it. *)
Lemma load_all_chunks_fails (X : Externals) (dir : string)
  (pdf_files : list (string * Node)) :
  forall (documents : list Document) (st : State (Vec X)),
    existsb (pdf_fails X dir) pdf_files = true ->
    exists e, fst (load_all_chunks X dir pdf_files documents st) = inl e.
Proof.
  induction pdf_files as [|[pdf_file node] rest IH]; intros documents st H.
  - discriminate.
  - cbn [load_all_chunks existsb] in *.
    unfold pdf_fails at 1, file_ok, file_status in H. cbn [fst snd] in H.
    change document_processor_splitter with rag_system_splitter in H.
    unfold bind at 1. unfold PyPDFLoader_load, bind, modify, lift.
    destruct (load_pdf X (path_join X dir pdf_file) node) as [e|pages].
    + now exists e.
    + destruct (split_documents X rag_system_splitter pages) as [e|chunks].
      * now exists e.
      * simpl in H. now apply IH.
Qed.

(** So one bad PDF makes the whole run raise, with nothing inserted. *)
Lemma initialize_vector_store_aborts (X : Externals) (st : State (Vec X))
  (entries : list (string * Node)) :
  store_dir st = DirEmpty ->
  fs st (pdf_dir st) = Some (inr entries) ->
  existsb (pdf_fails X (pdf_dir st))
    (filter (fun p => is_pdf_name (fst p)) entries) = true ->
  exists e loads,
    initialize_vector_store X st = (inl e, add_events loads st) /\
    forallb is_load loads = true.
Proof.
  intros Hsd Hfs Hbad.
  destruct (load_all_chunks_fails X (pdf_dir st) _ [] st Hbad) as [e0 He0].
  destruct (initialize_vector_store_cases X st)
    as [(persisted & Hsd' & _)
       |[(e & loads & _ & Hl & Hrun & _)
        |[(e & entries' & loads & documents & _ & Hfs' & _ & _ & Hdocs & _)
         |(entries' & loads & documents & inserted & _ & Hfs' & _ & _
           & Hdocs & _)]]].
  - congruence.
  - now exists e, loads.
  - assert (entries' = entries) by congruence. subst entries'. congruence.
  - assert (entries' = entries) by congruence. subst entries'. congruence.
Qed.

(** C2 One unreadable PDF among two: [process_documents] reports one
    processed and one failed, but [initialize_vector_store] stops at the
    bad file, so [process_docs] answers with the error and the index
    receives nothing, the good file's chunk included. *)
Theorem ingest_aborts_on_one_bad_pdf :
  fst (process_documents Doubles.env "/data/pdfs" Doubles.st_good_bad) =
    inr {| processed := 1; failed := 1;
           files := [FileSuccess "good.pdf" 1 1;
                     FileFailed "bad.pdf" "invalid pdf header"] |} /\
  fst (initialize_vector_store Doubles.env Doubles.st_good_bad) =
    inl (Exn LibraryError "invalid pdf header") /\
  fst (process_docs Doubles.env Doubles.st_good_bad) =
    inr (Resp500 "invalid pdf header") /\
  vector_store (snd (process_docs Doubles.env Doubles.st_good_bad)) = None /\
  store_dir (snd (process_docs Doubles.env Doubles.st_good_bad)) = DirEmpty /\
  count_events is_insert
    (events (snd (process_docs Doubles.env Doubles.st_good_bad))) = 0.
Proof. vm_compute. repeat split. Qed.

(** ** The text splitter on short texts *)

Lemma concat_empty_cons (x : string) (l : list string) :
  String.concat "" (x :: l) = (x ++ String.concat "" l)%string.
Proof.
  destruct l as [|y l]; simpl; [|reflexivity].
  induction x as [|c x IH]; simpl; [reflexivity|]. now rewrite <- IH.
Qed.

Lemma string_app_assoc (a b c : string) :
  ((a ++ b) ++ c = a ++ (b ++ c))%string.
Proof. induction a as [|x a IH]; simpl; [reflexivity|]. now rewrite IH. Qed.

Lemma string_app_nil_r (a : string) : (a ++ "")%string = a.
Proof. induction a as [|x a IH]; simpl; [reflexivity|]. now rewrite IH. Qed.

Lemma string_length_app (a b : string) :
  String.length (a ++ b) = String.length a + String.length b.
Proof. induction a as [|c a IH]; simpl; auto. Qed.

Lemma concat_empty_app (l1 l2 : list string) :
  String.concat "" (l1 ++ l2)
  = (String.concat "" l1 ++ String.concat "" l2)%string.
Proof.
  induction l1 as [|x l1 IH]; [reflexivity|].
  change ((x :: l1) ++ l2) with (x :: (l1 ++ l2)).
  now rewrite !concat_empty_cons, IH, string_app_assoc.
Qed.

Lemma concat_cut_before (sep text : string) :
  forall (skip : nat) (cur : string),
    String.concat "" (TextSplitter.cut_before sep text skip cur)
    = (cur ++ text)%string.
Proof.
  induction text as [|c r IH]; intros skip cur.
  - simpl. now rewrite string_app_nil_r.
  - cbn [TextSplitter.cut_before].
    destruct skip as [|k].
    + destruct (String.prefix sep (String c r)).
      * now rewrite concat_empty_cons, IH.
      * rewrite IH, string_app_assoc. reflexivity.
    + rewrite IH, string_app_assoc. reflexivity.
Qed.

Lemma concat_characters (text : string) :
  String.concat "" (TextSplitter.characters text) = text.
Proof.
  induction text as [|c r IH]; [reflexivity|].
  cbn [TextSplitter.characters]. now rewrite concat_empty_cons, IH.
Qed.

Lemma concat_filter_nonempty (l : list string) :
  String.concat "" (filter (fun s => negb (String.eqb s "")) l)
  = String.concat "" l.
Proof.
  induction l as [|x l IH]; [reflexivity|].
  cbn [filter]. destruct (String.eqb_spec x "") as [->|_]; cbn [negb].
  - now rewrite concat_empty_cons, IH.
  - now rewrite !concat_empty_cons, IH.
Qed.

(** The pieces put together are the text. *)
Lemma concat_split_text_with_regex (text separator : string) :
  String.concat "" (TextSplitter.split_text_with_regex text separator) = text.
Proof.
  unfold TextSplitter.split_text_with_regex.
  rewrite concat_filter_nonempty.
  destruct (String.eqb separator "").
  - apply concat_characters.
  - now rewrite concat_cut_before.
Qed.

Lemma piece_length (l : list string) (s : string) :
  In s l -> String.length s <= String.length (String.concat "" l).
Proof.
  induction l as [|x l IH]; intro Hin; [contradiction|].
  rewrite concat_empty_cons, string_length_app.
  destruct Hin as [<-|Hin]; [lia|]. specialize (IH Hin). lia.
Qed.

(** Pieces that fit together are merged into one document. *)
Lemma merge_loop_fits (cfg : SplitterConfig) (splits : list string) :
  forall (docs current_doc : list string) (total : Z),
    (total + TextSplitter.len (String.concat "" splits)
     <= Z.of_nat (chunk_size cfg))%Z ->
    TextSplitter.merge_loop cfg "" splits docs current_doc total
    = inr (docs ++ TextSplitter.doc_list
                     (TextSplitter.join_docs (current_doc ++ splits) "")).
Proof.
  unfold TextSplitter.len.
  induction splits as [|d rest IH]; intros docs current_doc total Hfit.
  - cbn [TextSplitter.merge_loop]. now rewrite app_nil_r.
  - cbn [TextSplitter.merge_loop]. cbv zeta.
    rewrite concat_empty_cons, string_length_app in Hfit.
    change (TextSplitter.len "") with 0%Z.
    assert (Hz : forall b : bool, (if b then 0 else 0)%Z = 0%Z)
      by (intros []; reflexivity).
    rewrite !Hz.
    destruct (Z.gtb_spec (total + TextSplitter.len d + 0)
                (Z.of_nat (chunk_size cfg))) as [Hgt|_].
    + unfold TextSplitter.len in Hgt. lia.
    + rewrite IH.
      * now rewrite <- app_assoc.
      * unfold TextSplitter.len. lia.
Qed.

Lemma flush_fits (cfg : SplitterConfig) (good : list string) :
  (TextSplitter.len (String.concat "" good) <= Z.of_nat (chunk_size cfg))%Z ->
  TextSplitter.flush cfg good []
  = inr (TextSplitter.doc_list (TextSplitter.join_docs good "")).
Proof.
  intro Hfit. unfold TextSplitter.flush, TextSplitter.merge_splits.
  destruct good as [|g good']; [reflexivity|].
  rewrite merge_loop_fits by lia. reflexivity.
Qed.

Lemma split_loop_all_short (cfg : SplitterConfig)
  (recurse : option (string -> result (list string)))
  (splits : list string) :
  forall good final : list string,
    Forall (fun s => (TextSplitter.len s < Z.of_nat (chunk_size cfg))%Z)
      splits ->
    TextSplitter.split_loop cfg recurse splits good final
    = TextSplitter.flush cfg (good ++ splits) final.
Proof.
  induction splits as [|s rest IH]; intros good final Hshort.
  - cbn [TextSplitter.split_loop]. now rewrite app_nil_r.
  - cbn [TextSplitter.split_loop]. inversion Hshort as [|? ? Hs Hrest]; subst.
    destruct (Z.ltb_spec (TextSplitter.len s) (Z.of_nat (chunk_size cfg)));
      [|lia].
    rewrite IH by assumption. now rewrite <- app_assoc.
Qed.

(** What a text that fits one chunk gives, whatever the separator. *)
Lemma split_loop_short_text (cfg : SplitterConfig)
  (recurse : option (string -> result (list string)))
  (text separator : string) :
  String.length text < chunk_size cfg ->
  TextSplitter.split_loop cfg recurse
    (TextSplitter.split_text_with_regex text separator) [] []
  = inr (TextSplitter.doc_list
           (if String.eqb (TextSplitter.strip text) "" then None
            else Some (TextSplitter.strip text))).
Proof.
  intro Hshort.
  pose proof (concat_split_text_with_regex text separator) as Hcat.
  rewrite split_loop_all_short.
  - cbn [app]. rewrite flush_fits.
    + unfold TextSplitter.join_docs, PyStr.join. now rewrite Hcat.
    + rewrite Hcat. unfold TextSplitter.len. lia.
  - apply Forall_forall. intros s Hin.
    apply piece_length in Hin. rewrite Hcat in Hin.
    unfold TextSplitter.len. lia.
Qed.

Lemma split_text_short (cfg : SplitterConfig) (text : string) :
  String.length text < chunk_size cfg ->
  TextSplitter.split_text cfg text
  = inr (TextSplitter.doc_list
           (if String.eqb (TextSplitter.strip text) "" then None
            else Some (TextSplitter.strip text))).
Proof.
  intro Hshort.
  unfold TextSplitter.split_text, TextSplitter.default_separators.
  cbn [TextSplitter._split_text].
  change (String.eqb (nl ++ nl) "") with false.
  change (String.eqb nl "") with false.
  change (String.eqb " " "") with false.
  change (String.eqb "" "") with true.
  cbv iota.
  destruct (TextSplitter.contains (nl ++ nl) text);
    [now apply split_loop_short_text|].
  destruct (TextSplitter.contains nl text);
    [now apply split_loop_short_text|].
  destruct (TextSplitter.contains " " text);
    now apply split_loop_short_text.
Qed.

Lemma lstrip_shape (s : string) :
  match TextSplitter.lstrip s with
  | EmptyString => string_forall TextSplitter.isspace s = true
  | String c _ =>
      TextSplitter.isspace c = false
      /\ string_forall TextSplitter.isspace s = false
  end.
Proof.
  induction s as [|c r IH]; [reflexivity|].
  cbn [TextSplitter.lstrip string_forall].
  destruct (TextSplitter.isspace c) eqn:Hc; cbn [andb].
  - exact IH.
  - rewrite Hc. auto.
Qed.

Lemma rstrip_keeps_head (c : ascii) (r : string) :
  TextSplitter.isspace c = false ->
  TextSplitter.rstrip (String c r) <> EmptyString.
Proof.
  intro Hc. cbn [TextSplitter.rstrip].
  destruct (TextSplitter.rstrip r); [rewrite Hc|]; discriminate.
Qed.

(** Stripping leaves nothing exactly of the texts made of whitespace. *)
Lemma strip_empty_iff (s : string) :
  TextSplitter.strip s = EmptyString
  <-> string_forall TextSplitter.isspace s = true.
Proof.
  unfold TextSplitter.strip. pose proof (lstrip_shape s) as H.
  destruct (TextSplitter.lstrip s) as [|c r].
  - split; [intros _; exact H|reflexivity].
  - destruct H as [Hc Hs]. split.
    + intro Hr. now apply rstrip_keeps_head in Hr.
    + intro Hall. congruence.
Qed.

(** C6, as the code has it: with [chunk_size] 1000, as both construction
    sites have it, a text shorter than 1000 characters that holds a
    character other than whitespace gives exactly one chunk, the text with
    the whitespace at its ends stripped; a text of whitespace only gives
    the empty sequence, as the empty text does, and none of them an
    error.  The same holds of a page handed to [split_documents]. *)
Theorem split_short_text_stripped (cfg : SplitterConfig) (text : string)
  (Hsize : chunk_size cfg = 1000)
  (Hshort : String.length text < 1000) :
  chunk_size document_processor_splitter = 1000 /\
  chunk_size rag_system_splitter = 1000 /\
  (string_forall TextSplitter.isspace text = false ->
   TextSplitter.strip text <> EmptyString /\
   TextSplitter.split_text cfg text = inr [TextSplitter.strip text] /\
   forall md : Metadata,
     TextSplitter.split_documents cfg
       [ {| page_content := text; metadata := md |} ]
     = inr [ {| page_content := TextSplitter.strip text; metadata := md |} ]) /\
  (string_forall TextSplitter.isspace text = true ->
   TextSplitter.split_text cfg text = inr [] /\
   forall md : Metadata,
     TextSplitter.split_documents cfg
       [ {| page_content := text; metadata := md |} ] = inr []) /\
  TextSplitter.split_text cfg EmptyString = inr [].
Proof.
  split; [reflexivity|]. split; [reflexivity|].
  assert (Hrun := split_text_short cfg text ltac:(lia)).
  split; [|split].
  - intro Hsome.
    assert (Hne : TextSplitter.strip text <> EmptyString).
    { intro He. apply strip_empty_iff in He. congruence. }
    destruct (String.eqb_spec (TextSplitter.strip text) "") as [He|_];
      [contradiction|].
    split; [exact Hne|]. split; [exact Hrun|].
    intro md. cbn [TextSplitter.split_documents page_content metadata].
    now rewrite Hrun.
  - intro Hall. apply strip_empty_iff in Hall.
    rewrite Hall in Hrun. split; [exact Hrun|].
    intro md. cbn [TextSplitter.split_documents page_content metadata].
    now rewrite Hrun.
  - now rewrite (split_text_short cfg EmptyString) by (simpl; lia).
Qed.

Lemma split_short_text_stripped_witness :
  TextSplitter.split_text document_processor_splitter
    " Paris is the capital of France. "
  = inr ["Paris is the capital of France."] /\
  TextSplitter.split_text document_processor_splitter EmptyString = inr [].
Proof.
  destruct (split_short_text_stripped document_processor_splitter
              " Paris is the capital of France. " eq_refl
              ltac:(vm_compute; lia))
    as (_ & _ & Hsome & _ & Hempty).
  split; [|exact Hempty].
  exact (proj1 (proj2 (Hsome eq_refl))).
Defined.

(** C6 as stated fails: a single space is a non-empty text shorter than
    the chunk size, and it gives no chunk. *)
Lemma split_whitespace_text_no_chunk :
  " "%string <> EmptyString /\
  String.length " " < chunk_size document_processor_splitter /\
  TextSplitter.split_text document_processor_splitter " " = inr [] /\
  TextSplitter.split_text rag_system_splitter " " = inr [].
Proof.
  split; [discriminate|]. split; [cbn; lia|]. split; reflexivity.
Qed.

(** * Further properties of the code *)

(** ** document_processor.py and the directory scans *)

Lemma filter_split_length {A : Type} (f : A -> bool) (l : list A) :
  List.length (filter f l) + List.length (filter (fun x => negb (f x)) l)
  = List.length l.
Proof.
  induction l as [|x r IH]; simpl; [reflexivity|].
  destruct (f x); simpl; lia.
Qed.

Lemma file_status_filename (X : Externals) (p : string * Node) :
  status_filename (file_status X p) = basename X (fst p).
Proof.
  unfold file_status.
  destruct (load_pdf X (fst p) (snd p)) as [e|documents]; [reflexivity|].
  destruct (split_documents X document_processor_splitter documents);
    reflexivity.
Qed.

(** X1 A report of [process_documents] accounts for every globbed file
    once: processed plus failed is the number of status records, which is
    the number of files the glob found, and the records name the files in
    glob order; the loader was called once per file. *)
Theorem process_documents_accounts_for_every_file (X : Externals)
  (pdf_directory : string) (st : State (Vec X)) (report : Report)
  (Hrun : fst (process_documents X pdf_directory st) = inr report) :
  processed report + failed report = List.length (files report) /\
  exists d,
    fst (resolve_pdf_directory X (normpath X pdf_directory) st) = inr d /\
    List.length (files report) = List.length (glob_pdf X st d) /\
    map status_filename (files report)
      = map (fun p => basename X (fst p)) (glob_pdf X st d) /\
    events (snd (process_documents X pdf_directory st))
      = events st ++ map (fun p => EvLoad (fst p)) (glob_pdf X st d).
Proof.
  rewrite process_documents_spec in *.
  destruct (fst (resolve_pdf_directory X (normpath X pdf_directory) st))
    as [e|d]; simpl in Hrun; [discriminate|].
  injection Hrun as <-. simpl.
  rewrite length_map, <- (filter_split_length (file_ok X) (glob_pdf X st d)).
  split; [reflexivity|]. exists d.
  split; [reflexivity|]. split; [apply filter_split_length|].
  split; [|reflexivity].
  rewrite map_map. apply map_ext. intro p. apply file_status_filename.
Qed.

Lemma process_documents_accounts_for_every_file_witness :
  exists report,
    fst (process_documents Doubles.env "/data/pdfs" Doubles.st_good_bad)
      = inr report /\
    processed report + failed report = List.length (files report) /\
    map status_filename (files report) = ["good.pdf"; "bad.pdf"].
Proof.
  eexists. split; [reflexivity|].
  destruct (process_documents_accounts_for_every_file Doubles.env
              "/data/pdfs" Doubles.st_good_bad _ eq_refl)
    as (Hsum & d & Hd & _ & Hnames & _).
  split; [exact Hsum|].
  injection Hd as <-. exact Hnames.
Defined.

(** X2 [process_documents] raises only for a missing directory, never
    for a document: when it raises, none of the three candidate
    directories exists, the exception is [FileNotFoundError] naming the
    normalised path, and nothing was loaded or changed. *)
Theorem process_documents_raises_only_without_directory (X : Externals)
  (pdf_directory : string) (st : State (Vec X)) (e : exn)
  (Hrun : fst (process_documents X pdf_directory st) = inl e) :
  path_exists st (normpath X pdf_directory) = false /\
  path_exists st (relative_pdf_dir X) = false /\
  path_exists st raw_path = false /\
  e = Exn FileNotFoundError
        ("PDF directory not found: " ++ normpath X pdf_directory) /\
  snd (process_documents X pdf_directory st) = st.
Proof.
  rewrite process_documents_spec in *.
  unfold resolve_pdf_directory, bind, get, ret, raise in *.
  cbv beta iota in *.
  destruct (path_exists st (normpath X pdf_directory)); [discriminate|].
  destruct (path_exists st (relative_pdf_dir X)); [discriminate|].
  destruct (path_exists st raw_path); [discriminate|].
  simpl in *. injection Hrun as <-. repeat split.
Qed.

Lemma process_documents_raises_only_without_directory_witness :
  snd (process_documents Doubles.env "/nowhere" Doubles.st_one_pdf)
    = Doubles.st_one_pdf /\
  path_exists Doubles.st_one_pdf "/nowhere" = false.
Proof.
  destruct (process_documents_raises_only_without_directory Doubles.env
              "/nowhere" Doubles.st_one_pdf _ eq_refl)
    as (Hgiven & _ & _ & _ & Hst).
  split; [exact Hst|exact Hgiven].
Defined.

(** X3 A missing directory is replaced without notice: when the path
    asked for does not exist and the package's data/pdfs directory does,
    the call does exactly what a call on data/pdfs does. *)
Theorem process_documents_falls_back_to_relative (X : Externals)
  (pdf_directory : string) (st : State (Vec X))
  (Hmissing : path_exists st (normpath X pdf_directory) = false)
  (Hrelative : path_exists st (relative_pdf_dir X) = true)
  (Hnorm : normpath X (relative_pdf_dir X) = relative_pdf_dir X) :
  process_documents X pdf_directory st
  = process_documents X (relative_pdf_dir X) st.
Proof.
  rewrite !process_documents_spec. rewrite Hnorm.
  unfold resolve_pdf_directory, bind, get, ret.
  cbv beta iota. rewrite Hmissing, Hrelative. reflexivity.
Qed.

Lemma process_documents_falls_back_to_relative_witness :
  process_documents Doubles.env "/nowhere" Doubles2.st_relative_only
  = process_documents Doubles.env "/app/data/pdfs" Doubles2.st_relative_only.
Proof.
  exact (process_documents_falls_back_to_relative Doubles.env "/nowhere"
           Doubles2.st_relative_only eq_refl eq_refl eq_refl).
Defined.

Lemma length_lower (s : string) :
  String.length (PyStr.lower s) = String.length s.
Proof. induction s as [|c r IH]; simpl; auto. Qed.

Lemma substring_lower (s : string) :
  forall n m : nat,
    substring n m (PyStr.lower s) = PyStr.lower (substring n m s).
Proof.
  induction s as [|c r IH]; intros [|n] [|m]; simpl; auto.
  now rewrite IH.
Qed.

Lemma lower_char_idempotent (c : ascii) :
  PyStr.lower_char (PyStr.lower_char c) = PyStr.lower_char c.
Proof. destruct c as [[] [] [] [] [] [] [] []]; reflexivity. Qed.

Lemma lower_idempotent (s : string) :
  PyStr.lower (PyStr.lower s) = PyStr.lower s.
Proof.
  induction s as [|c r IH]; simpl; [reflexivity|].
  now rewrite lower_char_idempotent, IH.
Qed.

Lemma lower_append (a b : string) :
  PyStr.lower (a ++ b) = (PyStr.lower a ++ PyStr.lower b)%string.
Proof. induction a as [|c r IH]; simpl; [reflexivity|]. now rewrite IH. Qed.

Lemma substring_whole (s : string) : substring 0 (String.length s) s = s.
Proof. induction s as [|c r IH]; simpl; [reflexivity|]. now rewrite IH. Qed.

Lemma substring_skip (a b : string) (m : nat) :
  substring (String.length a) m (a ++ b) = substring 0 m b.
Proof. induction a as [|c r IH]; simpl; auto. Qed.

Lemma endswith_append (a b : string) : PyStr.endswith (a ++ b) b = true.
Proof.
  unfold PyStr.endswith. rewrite length_append.
  replace (String.length a + String.length b - String.length b)
    with (String.length a) by lia.
  rewrite substring_skip, substring_whole, String.eqb_refl.
  rewrite andb_true_r. apply Nat.leb_le. lia.
Qed.

Lemma endswith_lower (s suffix : string) :
  PyStr.endswith s suffix = true ->
  PyStr.endswith (PyStr.lower s) (PyStr.lower suffix) = true.
Proof.
  unfold PyStr.endswith. rewrite !length_lower.
  intro H. apply andb_true_iff in H as [Hlen Heq].
  apply String.eqb_eq in Heq.
  rewrite Hlen, substring_lower, Heq. simpl. apply String.eqb_refl.
Qed.

(** X4 The extension test does not look at letter case: a name is taken
    for a PDF exactly when its lower-cased form is, every name that ends in
    an extension whose lower-cased form is [.pdf] is taken, and no name
    shorter than four characters is. *)
Theorem is_pdf_name_ignores_case (name stem ext : string)
  (Hext : PyStr.lower ext = ".pdf") :
  is_pdf_name (PyStr.lower name) = is_pdf_name name /\
  is_pdf_name (stem ++ ext) = true /\
  (String.length name < 4 -> is_pdf_name name = false).
Proof.
  unfold is_pdf_name. split; [now rewrite lower_idempotent|]. split.
  - rewrite lower_append, Hext. apply endswith_append.
  - intro Hshort. unfold PyStr.endswith. rewrite length_lower.
    change (String.length ".pdf") with 4.
    destruct (Nat.leb_spec 4 (String.length name)); [lia|reflexivity].
Qed.

Lemma is_pdf_name_ignores_case_witness :
  is_pdf_name (PyStr.lower "Scan.Pdf") = is_pdf_name "Scan.Pdf" /\
  is_pdf_name ("Annual Report" ++ ".PDF") = true.
Proof.
  destruct (is_pdf_name_ignores_case "Scan.Pdf" "Annual Report" ".PDF" eq_refl)
    as (Hlow & Hext & _).
  split; [exact Hlow|exact Hext].
Defined.

(** X5 For a directory path without wildcard characters, and where
    [os.path.normcase] changes nothing but the letter case of the entries'
    names, every file the glob of [process_documents] finds is a
    non-hidden entry of that directory that the [listdir] scan of
    [initialize_vector_store] and [list_documents] also takes, so the
    report never covers more files than the scan. *)
Theorem glob_pdf_within_listing (X : Externals) (st : State (Vec X))
  (dir : string) (entries : list (string * Node))
  (Hplain : has_magic dir = false)
  (Hdir : fs st dir = Some (inr entries))
  (Hcase : forall name node,
      In (name, node) entries ->
      PyStr.lower (normcase X name) = PyStr.lower name) :
  (forall (path : string) (node : Node),
      In (path, node) (glob_pdf X st dir) ->
      exists name,
        path = path_join X dir name /\
        PyStr.startswith name "." = false /\
        In (name, node) (filter (fun e => is_pdf_name (fst e)) entries)) /\
  List.length (glob_pdf X st dir)
    <= List.length (filter (fun e => is_pdf_name (fst e)) entries).
Proof.
  assert (Himp : forall name node,
             In (name, node) entries ->
             PyStr.endswith (normcase X name) ".pdf" = true ->
             is_pdf_name name = true).
  { intros name node Hin H. apply endswith_lower in H.
    unfold is_pdf_name. now rewrite <- (Hcase name node Hin). }
  unfold glob_pdf. rewrite Hplain, Hdir. split.
  - intros path node Hin. apply in_map_iff in Hin as ([name node'] & Heq & Hin).
    simpl in Heq. injection Heq as <- <-.
    apply filter_In in Hin as [Hin Hcond]. simpl in Hcond.
    apply andb_true_iff in Hcond as [Hhid Hend].
    exists name. split; [reflexivity|].
    split; [now apply negb_true_iff|].
    apply filter_In. split; [exact Hin|]. simpl. now apply (Himp name node').
  - rewrite length_map. clear Hdir Hcase.
    induction entries as [|[name node] rest IH]; simpl; [lia|].
    assert (IH' : List.length
                    (filter (fun e => negb (PyStr.startswith (fst e) ".")
                               && PyStr.endswith (normcase X (fst e)) ".pdf")
                       rest)
                  <= List.length (filter (fun e => is_pdf_name (fst e)) rest)).
    { apply IH. intros n nd Hin. apply (Himp n nd). now right. }
    destruct (negb (PyStr.startswith name ".")
              && PyStr.endswith (normcase X name) ".pdf") eqn:Hc.
    + apply andb_true_iff in Hc as [_ Hend].
      rewrite (Himp name node (or_introl eq_refl) Hend). simpl. lia.
    + destruct (is_pdf_name name); simpl; lia.
Qed.

Lemma glob_pdf_within_listing_witness :
  List.length (glob_pdf Doubles.env Doubles.st_good_bad "/data/pdfs") <= 2.
Proof.
  exact (proj2 (glob_pdf_within_listing Doubles.env Doubles.st_good_bad
                  "/data/pdfs" _ eq_refl eq_refl (fun _ _ _ => eq_refl))).
Defined.

(** X6 The health endpoint and a processing run agree on the PDF
    directory: when that directory exists and its path is already
    normalised, the run succeeds and its processed and failed counts add up
    to the [pdf_count] that [health_check] reports, which leaves the state
    as it was. *)
Theorem health_count_matches_report (X : Externals) (st : State (Vec X))
  (Hexists : path_exists st (pdf_dir st) = true)
  (Hnorm : normpath X (pdf_dir st) = pdf_dir st) :
  exists (health : Health) (report : Report),
    health_check X st = (inr health, st) /\
    fst (process_documents X (pdf_dir st) st) = inr report /\
    health_pdf_directory health = pdf_dir st /\
    processed report + failed report = pdf_count health /\
    List.length (files report) = pdf_count health.
Proof.
  eexists. eexists. split; [reflexivity|].
  rewrite process_documents_spec, Hnorm.
  unfold resolve_pdf_directory, bind, get, ret. cbv beta iota.
  rewrite Hexists. simpl.
  split; [reflexivity|]. split; [reflexivity|].
  unfold report_from. cbn [processed failed files empty_report app pdf_count].
  rewrite length_map. split; [apply filter_split_length|reflexivity].
Qed.

Lemma health_count_matches_report_witness :
  exists (health : Health) (report : Report),
    health_check Doubles.env Doubles.st_good_bad
      = (inr health, Doubles.st_good_bad) /\
    processed report + failed report = pdf_count health.
Proof.
  destruct (health_count_matches_report Doubles.env Doubles.st_good_bad
              eq_refl eq_refl)
    as (health & report & Hh & _ & _ & Hsum & _).
  exists health, report. split; [exact Hh|exact Hsum].
Defined.

(** ** rag_system.py and api.py: building the index, again *)

Lemma initialize_vector_store_success (X : Externals)
  (st s1 : State (Vec X)) (b : bool) :
  initialize_vector_store X st = (inr b, s1) ->
  b = true /\
  fs s1 = fs st /\ pdf_dir s1 = pdf_dir st /\
  exists entries,
    vector_store s1 = Some entries /\ store_dir s1 = DirPersisted entries.
Proof.
  intro H.
  destruct (initialize_vector_store_cases X st)
    as [(persisted & Hsd & Hrun)
       |[(e & loads & _ & _ & Hrun & _)
        |[(e & ? & ? & ? & _ & _ & _ & _ & _ & _ & Hrun)
         |(entries & loads & documents & inserted & _ & _ & _ & _ & _ & _
           & Hrun)]]];
    rewrite Hrun in H; try discriminate;
    injection H as <- <-; simpl; eauto 6.
Qed.

Lemma initialize_vector_store_failure (X : Externals)
  (st s1 : State (Vec X)) (e : exn) :
  initialize_vector_store X st = (inl e, s1) ->
  store_dir st = DirEmpty /\
  exists loads,
    forallb is_load loads = true /\
    (s1 = add_events loads st
     \/ s1 = set_store_dir (DirPersisted []) (add_events loads st)).
Proof.
  intro H.
  destruct (initialize_vector_store_cases X st)
    as [(persisted & Hsd & Hrun)
       |[(e' & loads & Hsd & Hl & Hrun & _)
        |[(e' & ? & loads & ? & Hsd & _ & _ & Hl & _ & _ & Hrun)
         |(entries & loads & documents & inserted & _ & _ & _ & _ & _ & _
           & Hrun)]]];
    rewrite Hrun in H; try discriminate;
    injection H as <- <-; eauto.
Qed.

(** X7 What a run of [initialize_vector_store] that raises leaves
    behind.  It can only raise when no store is persisted; it never sets
    the handle, inserts no entry, does not call [persist()] and leaves the
    file system alone.  The store directory is either still empty or, when
    the run got as far as [Chroma.from_documents], holds a collection
    without entries; in that case the next run reopens that store and
    succeeds with a zero-entry index instead of building one. *)
Theorem initialize_vector_store_failure_effects (X : Externals)
  (st st' : State (Vec X)) (e : exn)
  (Hrun : initialize_vector_store X st = (inl e, st')) :
  store_dir st = DirEmpty /\
  vector_store st' = vector_store st /\
  fs st' = fs st /\
  count_events is_insert (events st') = count_events is_insert (events st) /\
  count_events is_persist (events st')
    = count_events is_persist (events st) /\
  (store_dir st' = DirEmpty
   \/ store_dir st' = DirPersisted [] /\
      fst (initialize_vector_store X st') = inr true /\
      vector_store (snd (initialize_vector_store X st')) = Some [] /\
      count_events is_insert (events (snd (initialize_vector_store X st')))
        = count_events is_insert (events st)).
Proof.
  destruct (initialize_vector_store_failure X st st' e Hrun)
    as (Hsd & loads & Hl & Hst).
  destruct (loads_count loads Hl) as (Hi & Hp & _).
  assert (Hci : count_events is_insert (events st ++ loads)
                = count_events is_insert (events st))
    by (rewrite count_events_app; lia).
  assert (Hcp : count_events is_persist (events st ++ loads)
                = count_events is_persist (events st))
    by (rewrite count_events_app; lia).
  split; [exact Hsd|].
  destruct Hst as [->| ->].
  - simpl. repeat split; auto.
  - destruct (initialize_vector_store_cases X
                (set_store_dir (DirPersisted []) (add_events loads st)))
      as [(persisted & Hsd' & Hrun')
         |[(? & ? & Hsd' & _)
          |[(? & ? & ? & ? & Hsd' & _)
           |(? & ? & ? & ? & Hsd' & _)]]];
      simpl in Hsd'; try discriminate.
    injection Hsd' as <-. rewrite Hrun'. simpl.
    split; [reflexivity|]. split; [reflexivity|].
    split; [exact Hci|]. split; [exact Hcp|].
    right. split; [reflexivity|]. split; [reflexivity|].
    split; [reflexivity|].
    rewrite count_events_app, Hci. unfold count_events. simpl. lia.
Qed.

Lemma initialize_vector_store_failure_effects_witness :
  vector_store (snd (initialize_vector_store Doubles.env Doubles.st_good_bad))
    = None /\
  count_events is_insert
    (events (snd (initialize_vector_store Doubles.env Doubles.st_good_bad)))
    = 0.
Proof.
  destruct (initialize_vector_store_failure_effects Doubles.env
              Doubles.st_good_bad
              (snd (initialize_vector_store Doubles.env Doubles.st_good_bad))
              (Exn LibraryError "invalid pdf header") eq_refl)
    as (_ & Hvs & _ & Hins & _).
  split; [exact Hvs|exact Hins].
Defined.

(** X8 With no persisted store, one PDF whose load or split raises makes
    the whole run of [initialize_vector_store] raise: the loop has no
    [try], so the other PDFs' chunks are not inserted either. *)
Theorem initialize_vector_store_needs_every_pdf (X : Externals)
  (st : State (Vec X)) (entries : list (string * Node))
  (Hstore : store_dir st = DirEmpty)
  (Hdir : fs st (pdf_dir st) = Some (inr entries))
  (Hbad : existsb (pdf_fails X (pdf_dir st))
            (filter (fun p => is_pdf_name (fst p)) entries) = true) :
  exists e,
    fst (initialize_vector_store X st) = inl e /\
    vector_store (snd (initialize_vector_store X st)) = vector_store st /\
    store_dir (snd (initialize_vector_store X st)) = DirEmpty /\
    count_events is_insert (events (snd (initialize_vector_store X st)))
      = count_events is_insert (events st).
Proof.
  destruct (initialize_vector_store_aborts X st entries Hstore Hdir Hbad)
    as (e & loads & Hrun & Hl).
  destruct (loads_count loads Hl) as (Hi & _).
  exists e. rewrite Hrun. simpl.
  repeat split; auto. rewrite count_events_app. lia.
Qed.

Lemma initialize_vector_store_needs_every_pdf_witness :
  exists e,
    fst (initialize_vector_store Doubles.env Doubles.st_good_bad) = inl e /\
    vector_store (snd (initialize_vector_store Doubles.env Doubles.st_good_bad))
      = None.
Proof.
  destruct (initialize_vector_store_needs_every_pdf Doubles.env
              Doubles.st_good_bad _ eq_refl eq_refl eq_refl)
    as (e & He & Hvs & _).
  exists e. split; [exact He|exact Hvs].
Defined.

Lemma process_documents_state (X : Externals) (pdf_directory : string)
  (st : State (Vec X)) :
  exists loads,
    snd (process_documents X pdf_directory st) = add_events loads st /\
    forallb is_load loads = true.
Proof.
  rewrite process_documents_spec.
  destruct (fst (resolve_pdf_directory X (normpath X pdf_directory) st))
    as [e|d]; simpl.
  - exists []. now rewrite add_events_nil.
  - eexists. split; [reflexivity|apply load_events_are_loads].
Qed.

(** What [process_docs] comes to, by the outcomes of its two calls. *)
Lemma process_docs_run (X : Externals) (st : State (Vec X)) :
  process_docs X st =
  match process_documents X (pdf_dir st) st with
  | (inl e, s1) => (inr (Resp500 (exn_str e)), s1)
  | (inr report, s1) =>
      match initialize_vector_store X s1 with
      | (inl e, s2) => (inr (Resp500 (exn_str e)), s2)
      | (inr _, s2) =>
          (inr (Resp200 ("Processed " ++ string_of_nat (processed report)
                         ++ " documents") report), s2)
      end
  end.
Proof.
  unfold process_docs, try_except, bind, get, ret. cbv beta iota.
  destruct (process_documents X (pdf_dir st) st) as [[e|report] s1];
    [reflexivity|].
  destruct (initialize_vector_store X s1) as [[e|b] s2]; reflexivity.
Qed.

(** X9 Once a store is persisted, [process_docs] no longer indexes
    anything: it loads and reports the directory's PDFs and answers 200
    with that report, but the index it leaves is the persisted collection,
    whatever the PDF directory now holds; nothing is inserted or
    persisted. *)
Theorem process_docs_keeps_persisted_index (X : Externals)
  (st : State (Vec X)) (persisted : list (Entry (Vec X))) (report : Report)
  (Hstore : store_dir st = DirPersisted persisted)
  (Hreport : fst (process_documents X (pdf_dir st) st) = inr report) :
  fst (process_docs X st)
    = inr (Resp200 ("Processed " ++ string_of_nat (processed report)
                    ++ " documents") report) /\
  vector_store (snd (process_docs X st)) = Some persisted /\
  store_dir (snd (process_docs X st)) = DirPersisted persisted /\
  exists new,
    events (snd (process_docs X st)) = events st ++ new /\
    count_events is_insert new = 0 /\
    count_events is_persist new = 0.
Proof.
  rewrite process_docs_run.
  destruct (process_documents_state X (pdf_dir st) st) as (loads & Hs & Hl).
  destruct (process_documents X (pdf_dir st) st) as [r s1].
  simpl in Hreport, Hs. subst r s1.
  destruct (initialize_vector_store_cases X (add_events loads st))
    as [(persisted' & Hsd & Hrun)
       |[(e & loads' & Hsd & _)
        |[(? & ? & ? & ? & Hsd & _)
         |(? & ? & ? & ? & Hsd & _)]]];
    simpl in Hsd; try congruence.
  rewrite Hrun. simpl.
  assert (persisted' = persisted) by congruence. subst persisted'.
  destruct (loads_count loads Hl) as (Hi & Hp & _).
  repeat split; auto.
  exists (loads ++ [EvOpenStore]).
  rewrite !count_events_app, Hi, Hp, app_assoc. repeat split.
Qed.

Lemma process_docs_keeps_persisted_index_witness :
  index_count (snd (process_docs Doubles.env Doubles2.st_persisted)) = 1 /\
  exists report,
    fst (process_docs Doubles.env Doubles2.st_persisted)
      = inr (Resp200 "Processed 1 documents" report).
Proof.
  destruct (process_docs_keeps_persisted_index Doubles.env
              Doubles2.st_persisted _ _ eq_refl eq_refl)
    as (Hresp & Hvs & _).
  split.
  - unfold index_count. rewrite Hvs. reflexivity.
  - eexists. exact Hresp.
Defined.

(** X10 [process_docs] never raises.  It answers 200 only when both the
    processing and the index initialisation succeeded, with the processing
    report and with a handle that agrees with the persisted directory.
    When it answers 500 the handle is unchanged and no entry was inserted;
    the store directory is unchanged too, unless the build failed inside
    [Chroma.from_documents], which leaves it holding a collection without
    entries. *)
Theorem process_docs_response (X : Externals) (st : State (Vec X)) :
  match fst (process_docs X st) with
  | inl _ => False
  | inr (Resp200 message details) =>
      fst (process_documents X (pdf_dir st) st) = inr details /\
      message = ("Processed " ++ string_of_nat (processed details)
                 ++ " documents")%string /\
      exists entries,
        vector_store (snd (process_docs X st)) = Some entries /\
        store_dir (snd (process_docs X st)) = DirPersisted entries
  | inr (Resp500 _) =>
      vector_store (snd (process_docs X st)) = vector_store st /\
      count_events is_insert (events (snd (process_docs X st)))
        = count_events is_insert (events st) /\
      (store_dir (snd (process_docs X st)) = store_dir st
       \/ store_dir st = DirEmpty /\
          store_dir (snd (process_docs X st)) = DirPersisted [])
  end.
Proof.
  rewrite process_docs_run.
  destruct (process_documents_state X (pdf_dir st) st) as (loads & Hs & Hl).
  destruct (loads_count loads Hl) as (Hi & _).
  assert (Hci : count_events is_insert (events st ++ loads)
                = count_events is_insert (events st))
    by (rewrite count_events_app; lia).
  destruct (process_documents X (pdf_dir st) st) as [[e|report] s1];
    simpl in Hs; subst s1; simpl; [auto|].
  destruct (initialize_vector_store X (add_events loads st))
    as [[e|b] s2] eqn:Hrun; simpl.
  - apply initialize_vector_store_failure in Hrun
      as (Hsd & loads' & Hl' & Hs2).
    destruct (loads_count loads' Hl') as (Hi' & _).
    simpl in Hsd.
    destruct Hs2 as [->| ->]; simpl;
      (split; [reflexivity|]);
      (split; [rewrite count_events_app, Hci; lia|]); auto.
  - apply initialize_vector_store_success in Hrun
      as (_ & _ & _ & entries & Hvs & Hsd). eauto.
Qed.

(** ** rag_system.py and api.py: answering, again *)

(** X11 With a handle loaded, [query] never rebuilds or changes the
    index.  It searches once with k = 5; if the search raises, the LLM is
    not called; otherwise the LLM is called exactly once, on the prompt
    built from the retrieved texts joined by blank lines and the question,
    and its reply is the answer returned. *)
Theorem query_with_loaded_index (X : Externals) (query_text : string)
  (st : State (Vec X)) (h : list (Entry (Vec X)))
  (Hhandle : vector_store st = Some h) :
  vector_store (snd (query X query_text st)) = Some h /\
  store_dir (snd (query X query_text st)) = store_dir st /\
  match similarity_search X h query_text 5 with
  | inl e =>
      fst (query X query_text st) = inl e /\
      events (snd (query X query_text st))
        = events st ++ [EvSearch query_text 5]
  | inr docs =>
      let prompt :=
        prompt_format (PyStr.join (nl ++ nl) (map page_content docs))
          query_text in
      events (snd (query X query_text st))
        = events st ++ [EvSearch query_text 5; EvLLM prompt] /\
      fst (query X query_text st)
        = match llm_call X prompt with
          | inl e => inl e
          | inr text =>
              inr {| answer := text; sources := map source_info docs |}
          end
  end.
Proof.
  rewrite (query_with_handle_run X query_text st h Hhandle).
  destruct (similarity_search X h query_text 5) as [e|docs]; simpl.
  - auto.
  - destruct (llm_call X _) as [e|text]; simpl; auto.
Qed.

Lemma query_with_loaded_index_witness :
  vector_store (snd (query Doubles.env "Which city?" Doubles2.st_loaded))
    = vector_store Doubles2.st_loaded /\
  count_events is_llm
    (events (snd (query Doubles.env "Which city?" Doubles2.st_loaded))) = 1.
Proof.
  destruct (query_with_loaded_index Doubles.env "Which city?"
              Doubles2.st_loaded _ eq_refl) as (Hvs & _ & Hevents & _).
  split; [exact Hvs|].
  rewrite Hevents. reflexivity.
Defined.

(** X12 The index is built at most once per process: after a query that
    answered, a further query reuses the handle, and its only calls are the
    search and at most one LLM call; no PDF is loaded, nothing is inserted
    or persisted. *)
Theorem query_after_query_reuses_index (X : Externals)
  (q1 q2 : string) (st st1 : State (Vec X)) (r1 : QueryResult)
  (Hfirst : query X q1 st = (inr r1, st1)) :
  exists (h : list (Entry (Vec X))) (new : list (Event (Vec X))),
    vector_store st1 = Some h /\
    vector_store (snd (query X q2 st1)) = Some h /\
    store_dir (snd (query X q2 st1)) = store_dir st1 /\
    events (snd (query X q2 st1)) = events st1 ++ new /\
    forallb (fun e => is_search e || is_llm e) new = true /\
    count_events is_search new = 1 /\
    count_events is_llm new <= 1.
Proof.
  assert (Hh : exists h, vector_store st1 = Some h).
  { unfold query in Hfirst. unfold bind at 1 in Hfirst.
    destruct (get_retriever X st) as [[e|h] s1] eqn:Hret; [discriminate|].
    apply get_retriever_handle in Hret. exists h.
    unfold bind at 1 in Hfirst.
    unfold RetrievalQA_call, bind, modify, lift, ret in Hfirst.
    cbv beta iota in Hfirst.
    destruct (similarity_search X h q1 retriever_k); [discriminate|].
    destruct (llm_call X _); [discriminate|].
    injection Hfirst as _ <-. exact Hret. }
  destruct Hh as [h Hh]. exists h.
  rewrite (query_with_handle_run X q2 st1 h Hh).
  destruct (similarity_search X h q2 5) as [e|docs]; cbv zeta.
  - exists [EvSearch q2 5]. simpl. repeat split; auto.
  - destruct (llm_call X _) as [e|text];
      eexists [EvSearch q2 5; EvLLM _]; simpl; repeat split; auto.
Qed.

Lemma query_after_query_reuses_index_witness :
  exists new : list (Event nat),
    events (snd (query Doubles.env "And Rome?"
                   (snd (query Doubles.env "Which city?" Doubles.st_one_pdf))))
    = events (snd (query Doubles.env "Which city?" Doubles.st_one_pdf)) ++ new
    /\ count_events is_search new = 1.
Proof.
  destruct (query Doubles.env "Which city?" Doubles.st_one_pdf)
    as [[e|r1] st1] eqn:Hq; [vm_compute in Hq; discriminate|].
  destruct (query_after_query_reuses_index Doubles.env "Which city?"
              "And Rome?" Doubles.st_one_pdf st1 r1 Hq)
    as (h & new & _ & _ & _ & Hev & _ & Hc & _).
  exists new. split; [exact Hev|exact Hc].
Defined.

(** The guards of [initialize_vector_store] that stop a build before any
    PDF is read. *)
Lemma initialize_vector_store_no_pdfs (X : Externals) (st : State (Vec X)) :
  store_dir st = DirEmpty ->
  match fs st (pdf_dir st) with
  | Some (inr entries) => filter (fun e => is_pdf_name (fst e)) entries = []
  | _ => True
  end ->
  initialize_vector_store X st =
  (inl match fs st (pdf_dir st) with
       | None =>
           Exn FileNotFoundError ("PDF directory not found: " ++ pdf_dir st)
       | Some (inl e) => e
       | Some (inr _) =>
           Exn ValueError ("No PDF files found in " ++ pdf_dir st)
       end, st).
Proof.
  intros Hsd Hnopdf.
  unfold initialize_vector_store, try_except, bind, get, raise, lift.
  cbv beta iota. rewrite Hsd.
  destruct (fs st (pdf_dir st)) as [[e|entries]|]; [reflexivity| |reflexivity].
  rewrite Hnopdf. reflexivity.
Qed.

(** X13 [/api/ask] never raises, and a request without a usable query
    never reaches the RAG system: a missing [query] key or an empty query
    string is answered 400 "Query is required" with the state untouched (no
    index build, no search, no LLM call), and an exception while reading
    the request is answered 500 with its text. *)
Theorem ask_question_rejects_empty_query (X : Externals)
  (st : State (Vec X)) (request_json : result (option string)) :
  (exists response, fst (ask_question X request_json st) = inr response) /\
  ask_question X (inr None) st = (inr (Ask400 "Query is required"), st) /\
  ask_question X (inr (Some "")) st = (inr (Ask400 "Query is required"), st) /\
  (forall e, ask_question X (inl e) st = (inr (Ask500 (exn_str e)), st)).
Proof.
  split; [|split; [reflexivity|split; [reflexivity|intro; reflexivity]]].
  unfold ask_question, try_except, bind, lift, ret. cbv beta iota.
  destruct request_json as [e|[q|]]; cbv beta iota;
    [eexists; reflexivity| |eexists; reflexivity].
  destruct (String.eqb q ""); [eexists; reflexivity|].
  destruct (answer_question X q st) as [[e|r] s']; eexists; reflexivity.
Qed.

(** X14 Asked on a system whose index was never built and whose PDF
    directory is missing, cannot be listed or holds no PDF, [/api/ask]
    answers 500 with the text of what stopped the build, and changes
    nothing: the question never reaches the search or the LLM. *)
Theorem ask_question_without_documents (X : Externals)
  (st : State (Vec X)) (question : string)
  (Hquestion : question <> EmptyString)
  (Hhandle : vector_store st = None)
  (Hstore : store_dir st = DirEmpty)
  (Hnopdf : match fs st (pdf_dir st) with
            | Some (inr entries) =>
                filter (fun p => is_pdf_name (fst p)) entries = []
            | _ => True
            end) :
  ask_question X (inr (Some question)) st =
  (inr (Ask500 match fs st (pdf_dir st) with
               | None => "PDF directory not found: " ++ pdf_dir st
               | Some (inl e) => exn_str e
               | Some (inr _) => "No PDF files found in " ++ pdf_dir st
               end), st).
Proof.
  unfold ask_question, answer_question, query, get_retriever, try_except,
    bind, get, lift, ret.
  cbv beta iota.
  destruct (String.eqb_spec question "") as [->|_]; [now elim Hquestion|].
  rewrite Hhandle, (initialize_vector_store_no_pdfs X st Hstore Hnopdf).
  destruct (fs st (pdf_dir st)) as [[e|entries]|]; reflexivity.
Qed.

Lemma ask_question_without_documents_witness :
  ask_question Doubles.env (inr (Some "Which city?"))
    (Doubles.fresh [("notes.txt", Doubles.corrupt_file)])
  = (inr (Ask500 "No PDF files found in /data/pdfs"),
     Doubles.fresh [("notes.txt", Doubles.corrupt_file)]).
Proof.
  apply (ask_question_without_documents Doubles.env
           (Doubles.fresh [("notes.txt", Doubles.corrupt_file)])
           "Which city?");
    [discriminate|reflexivity|reflexivity|reflexivity].
Defined.

(** X15 [get_all_document_content] never calls the LLM; with a handle
    loaded it does one search for "important information" with k = 100
    over that handle, returns what the search returns, and leaves the index
    as it was. *)
Theorem get_all_document_content_only_searches (X : Externals)
  (st : State (Vec X)) :
  count_events is_llm (events (snd (get_all_document_content X st)))
    = count_events is_llm (events st) /\
  (forall h,
      vector_store st = Some h ->
      get_all_document_content X st =
      (similarity_search X h "important information" 100,
       add_events [EvSearch "important information" 100] st)).
Proof.
  split.
  - unfold get_all_document_content, bind, get, ret, raise, modify, lift.
    cbv beta iota.
    destruct (vector_store st) as [h|] eqn:Hvs.
    + cbv beta iota. rewrite Hvs. simpl.
      rewrite count_events_app. unfold count_events. simpl. lia.
    + destruct (initialize_vector_store X st) as [[e|b] s1] eqn:Hrun.
      * apply initialize_vector_store_failure in Hrun
          as (_ & loads & Hl & Hs1).
        destruct (loads_count loads Hl) as (_ & _ & Hllm).
        destruct Hs1 as [->| ->]; simpl; rewrite count_events_app; lia.
      * assert (Hev : count_events is_llm (events s1)
                      = count_events is_llm (events st)).
        { destruct (initialize_vector_store_cases X st)
            as [(persisted & _ & Hrun')
               |[(e & loads & _ & _ & Hrun' & _)
                |[(e & ? & ? & ? & _ & _ & _ & _ & _ & _ & Hrun')
                 |(entries & loads & documents & inserted & _ & _ & _ & Hl
                   & _ & _ & Hrun')]]];
            rewrite Hrun' in Hrun; try discriminate;
            injection Hrun as _ <-; simpl; rewrite count_events_app.
          - unfold count_events. simpl. lia.
          - rewrite count_events_app.
            destruct (loads_count loads Hl) as (_ & _ & Hllm).
            rewrite Hllm. unfold count_events. simpl. lia. }
        cbv beta iota.
        destruct (vector_store s1); simpl; [|exact Hev].
        rewrite count_events_app, Hev. unfold count_events. simpl. lia.
  - intros h Hvs.
    unfold get_all_document_content, bind, get, ret, raise, modify, lift.
    cbv beta iota. rewrite Hvs. cbv beta iota. rewrite Hvs. reflexivity.
Qed.

Lemma get_all_document_content_only_searches_witness :
  count_events is_llm
    (events (snd (get_all_document_content Doubles.env Doubles2.st_loaded)))
  = 0 /\
  index_count (snd (get_all_document_content Doubles.env Doubles2.st_loaded))
  = 1.
Proof.
  destruct (get_all_document_content_only_searches Doubles.env
              Doubles2.st_loaded) as (Hllm & Hrun).
  split; [exact Hllm|].
  rewrite (Hrun _ eq_refl). reflexivity.
Defined.

(** X16 [/api/documents] never raises and never changes the state.
    It answers 500, with the exception's text, exactly when the PDF
    directory exists and cannot be listed; otherwise it answers 200 with
    what [list_documents] returns: an empty list for a missing directory,
    and one record per PDF name of the listing, files that cannot be read
    included. *)
Theorem get_documents_response (X : Externals) (st : State (Vec X)) :
  get_documents X st =
  (inr match fs st (pdf_dir st) with
       | None => Docs200 [] (pdf_dir st)
       | Some (inl e) => Docs500 (exn_str e)
       | Some (inr entries) =>
           Docs200
             (map (fun p => document_info X (fst p) (snd p))
                (filter (fun p => is_pdf_name (fst p)) entries))
             (pdf_dir st)
       end, st) /\
  (forall documents directory,
      fst (get_documents X st) = inr (Docs200 documents directory) ->
      list_documents X (pdf_dir st) st = (inr documents, st) /\
      directory = pdf_dir st) /\
  (forall message,
      fst (get_documents X st) = inr (Docs500 message) ->
      exists e,
        fs st (pdf_dir st) = Some (inl e) /\ message = exn_str e /\
        list_documents X (pdf_dir st) st = (inl e, st)).
Proof.
  assert (Hrun : get_documents X st =
            (inr match fs st (pdf_dir st) with
                 | None => Docs200 [] (pdf_dir st)
                 | Some (inl e) => Docs500 (exn_str e)
                 | Some (inr entries) =>
                     Docs200
                       (map (fun p => document_info X (fst p) (snd p))
                          (filter (fun p => is_pdf_name (fst p)) entries))
                       (pdf_dir st)
                 end, st)).
  { unfold get_documents, try_except, bind, get, ret. cbv beta iota.
    rewrite list_documents_run.
    destruct (fs st (pdf_dir st)) as [[e|entries]|]; reflexivity. }
  split; [exact Hrun|]. rewrite Hrun, list_documents_run. simpl.
  destruct (fs st (pdf_dir st)) as [[e|entries]|]; split;
    try (intros ? ? H; discriminate H);
    try (intros ? H; discriminate H).
  - intros message H. injection H as <-. exists e. auto.
  - intros documents directory H. injection H as <- <-. auto.
  - intros documents directory H. injection H as <- <-. auto.
Qed.

Lemma get_documents_response_witness :
  get_documents Doubles.env Doubles2.st_relative_only
  = (inr (Docs200 [] "/nowhere"), Doubles2.st_relative_only).
Proof.
  exact (proj1 (get_documents_response Doubles.env Doubles2.st_relative_only)).
Defined.

(** ** utils.py: sizes, file names and JSON files *)

Lemma round_half_even_near (num den : Z) :
  (0 < den)%Z ->
  (Z.abs (2 * (den * round_half_even num den - num)) <= den)%Z.
Proof.
  intro Hden. unfold round_half_even. cbv zeta.
  pose proof (Z.div_mod num den ltac:(lia)) as Hdm.
  pose proof (Z.mod_pos_bound num den Hden) as Hr.
  destruct (Z.ltb_spec (2 * (num mod den)) den);
    [|destruct (Z.ltb_spec den (2 * (num mod den)));
      [|destruct (Z.even (num / den))]]; nia.
Qed.

Lemma round_half_even_monotone (a b den : Z) :
  (0 < den)%Z -> (a <= b)%Z ->
  (round_half_even a den <= round_half_even b den)%Z.
Proof.
  intros Hden Hab.
  destruct (Z.eq_dec a b) as [->|Hne]; [lia|].
  unfold round_half_even. cbv zeta.
  pose proof (Z.div_mod a den ltac:(lia)) as Ha.
  pose proof (Z.div_mod b den ltac:(lia)) as Hb.
  pose proof (Z.mod_pos_bound a den Hden) as Hra.
  pose proof (Z.mod_pos_bound b den Hden) as Hrb.
  assert (Hq : (a / den <= b / den)%Z) by (apply Z.div_le_mono; lia).
  destruct (Z.ltb_spec (2 * (a mod den)) den);
    [|destruct (Z.ltb_spec den (2 * (a mod den)));
      [|destruct (Z.even (a / den))]];
    (destruct (Z.ltb_spec (2 * (b mod den)) den);
     [|destruct (Z.ltb_spec den (2 * (b mod den)));
       [|destruct (Z.even (b / den))]]);
    nia.
Qed.

(** X17 The [size_kb] a listing shows is the file size in KB to the
    nearest hundredth: it is off by at most half a hundredth, it is not
    negative for a size that is not, and a larger file never shows a
    smaller figure. *)
Theorem size_kb_of_accuracy (size size' : Z)
  (Hsize : (0 <= size)%Z) (Hle : (size <= size')%Z) :
  (Z.abs (1024 * size_kb_of size - 100 * size) <= 512)%Z /\
  (0 <= size_kb_of size)%Z /\
  (size_kb_of size <= size_kb_of size')%Z.
Proof.
  unfold size_kb_of.
  pose proof (round_half_even_near (size * 100) 1024 ltac:(lia)) as Hnear.
  pose proof (round_half_even_monotone 0 (size * 100) 1024
                ltac:(lia) ltac:(lia)) as Hpos.
  change (round_half_even 0 1024) with 0%Z in Hpos.
  split; [lia|]. split; [exact Hpos|].
  apply round_half_even_monotone; lia.
Qed.

Lemma size_kb_of_accuracy_witness :
  (Z.abs (1024 * size_kb_of 2000 - 100 * 2000) <= 512)%Z /\
  (size_kb_of 2000 <= size_kb_of 2048)%Z.
Proof.
  destruct (size_kb_of_accuracy 2000 2048 ltac:(lia) ltac:(lia))
    as (Hnear & _ & Hmono).
  split; [exact Hnear|exact Hmono].
Defined.

Lemma sanitize_filename_kept (isalnum : ascii -> bool) (s : string) :
  string_forall (kept_char isalnum) (sanitize_filename isalnum s) = true.
Proof.
  induction s as [|c r IH]; simpl; [reflexivity|].
  destruct (kept_char isalnum c) eqn:Hc; simpl; [now rewrite Hc|exact IH].
Qed.

Lemma sanitize_filename_fixed (isalnum : ascii -> bool) (s : string) :
  string_forall (kept_char isalnum) s = true ->
  sanitize_filename isalnum s = s.
Proof.
  induction s as [|c r IH]; simpl; [reflexivity|].
  intro H. apply andb_true_iff in H as [Hc Hr].
  now rewrite Hc, IH.
Qed.

Lemma sanitize_filename_length (isalnum : ascii -> bool) (s : string) :
  String.length (sanitize_filename isalnum s) <= String.length s.
Proof.
  induction s as [|c r IH]; simpl; [lia|].
  destruct (kept_char isalnum c); simpl; lia.
Qed.

(** X18 [sanitize_filename] is a projection onto the names made of
    alphanumeric characters, dots, underscores, hyphens and spaces: its
    result is such a name and is never longer than the input, sanitising
    twice changes nothing more, and a name is returned unchanged exactly
    when it is already such a name. *)
Theorem sanitize_filename_idempotent (isalnum : ascii -> bool)
  (filename : string) :
  sanitize_filename isalnum (sanitize_filename isalnum filename)
    = sanitize_filename isalnum filename /\
  string_forall (kept_char isalnum) (sanitize_filename isalnum filename)
    = true /\
  String.length (sanitize_filename isalnum filename)
    <= String.length filename /\
  (sanitize_filename isalnum filename = filename <->
   string_forall (kept_char isalnum) filename = true).
Proof.
  split; [apply sanitize_filename_fixed, sanitize_filename_kept|].
  split; [apply sanitize_filename_kept|].
  split; [apply sanitize_filename_length|]. split.
  - intro H. rewrite <- H. apply sanitize_filename_kept.
  - apply sanitize_filename_fixed.
Qed.

(** X19 A character that is neither alphanumeric nor one of [._- ]
    never occurs in a sanitised name, so no path separator or control
    character survives; dots do, so a sanitised name can still be [..]. *)
Theorem sanitize_filename_drops_unsafe (isalnum : ascii -> bool)
  (filename : string) (c : ascii)
  (Hnot_alnum : isalnum c = false)
  (Hnot_listed : char_in c "._- " = false) :
  char_in c (sanitize_filename isalnum filename) = false /\
  sanitize_filename isalnum ".." = "..".
Proof.
  split.
  2:{ assert (Hdot : kept_char isalnum "."%char = true)
        by (unfold kept_char; apply orb_true_r).
      simpl. now rewrite Hdot. }
  induction filename as [|d r IH]; simpl; [reflexivity|].
  destruct (kept_char isalnum d) eqn:Hd; [|exact IH].
  simpl. rewrite IH, orb_false_r.
  destruct (Ascii.eqb_spec c d) as [->|_]; [|reflexivity].
  unfold kept_char in Hd. now rewrite Hnot_alnum, Hnot_listed in Hd.
Qed.

Lemma sanitize_filename_drops_unsafe_witness :
  char_in "/"%char
    (sanitize_filename Doubles2.ascii_isalnum "../../etc/passwd") = false.
Proof.
  exact (proj1 (sanitize_filename_drops_unsafe Doubles2.ascii_isalnum
                  "../../etc/passwd" "/"%char eq_refl eq_refl)).
Defined.

(** What [save_json_data] comes to: it answers [True] or [False], and
    once the file could be opened it holds whatever the dump wrote. *)
Lemma save_json_data_run (J : Type) (json_dump : J -> string * option exn)
  (data : J) (filepath : string) (st : TextFiles) :
  save_json_data J json_dump data filepath st =
  match open_for_write st filepath with
  | Some _ => (inr false, st)
  | None =>
      (inr match snd (json_dump data) with Some _ => false | None => true end,
       write_text filepath (fst (json_dump data))
         (write_text filepath "" st))
  end.
Proof.
  unfold save_json_data, try_except, bind, get, raise, ret, modify.
  cbv beta iota.
  destruct (open_for_write st filepath); [reflexivity|].
  destruct (snd (json_dump data)); reflexivity.
Qed.

(** X20 Saving and loading compose to the identity where the codec does:
    if the file can be opened for writing and reading, the dump of the data
    completes and its text parses back to the data, then [save_json_data]
    answers [True], the file holds the dumped text, no other file changed,
    and [load_json_data] on the same path returns the data. *)
Theorem save_then_load_round_trip (J : Type)
  (json_dump : J -> string * option exn)
  (json_load : string -> result (option J))
  (data : J) (filepath text : string) (st : TextFiles)
  (Hwrite : open_for_write st filepath = None)
  (Hread : open_for_read st filepath = None)
  (Hdump : json_dump data = (text, None))
  (Hload : json_load text = inr (Some data)) :
  exists st',
    save_json_data J json_dump data filepath st = (inr true, st') /\
    text_of st' filepath = Some text /\
    (forall p, p <> filepath -> text_of st' p = text_of st p) /\
    load_json_data J json_load filepath st' = (inr (Some data), st').
Proof.
  rewrite save_json_data_run, Hwrite, Hdump. simpl.
  eexists. split; [reflexivity|].
  assert (Hself : (filepath =? filepath)%string = true)
    by apply String.eqb_refl.
  split; [simpl; now rewrite Hself|]. split.
  - intros p Hp. simpl.
    destruct (String.eqb_spec p filepath); [contradiction|reflexivity].
  - unfold load_json_data, try_except, bind, get, ret, raise, lift.
    cbv beta iota. simpl. rewrite Hself, Hread, Hload. reflexivity.
Qed.

Lemma save_then_load_round_trip_witness :
  exists st',
    save_json_data string Doubles2.text_dump "hello" "/tmp/state.json"
      Doubles2.no_files = (inr true, st') /\
    load_json_data string Doubles2.text_load "/tmp/state.json" st'
      = (inr (Some "hello"), st').
Proof.
  destruct (save_then_load_round_trip string Doubles2.text_dump
              Doubles2.text_load "hello" "/tmp/state.json" "hello"
              Doubles2.no_files eq_refl eq_refl eq_refl eq_refl)
    as (st' & Hsave & _ & _ & Hloadback).
  exists st'. split; [exact Hsave|exact Hloadback].
Defined.

(** X21 [save_json_data] never raises, but a save that fails half-way
    is not harmless: when the file opens and the dump then raises, the
    answer is [False] and the file holds only what the dump had written,
    its earlier content gone.  When the file cannot be opened, nothing
    changes. *)
Theorem save_json_data_failure_truncates (J : Type)
  (json_dump : J -> string * option exn)
  (data : J) (filepath : string) (st : TextFiles) (e : exn)
  (Hdump : snd (json_dump data) = Some e) :
  (open_for_write st filepath = None ->
   fst (save_json_data J json_dump data filepath st) = inr false /\
   text_of (snd (save_json_data J json_dump data filepath st)) filepath
     = Some (fst (json_dump data))) /\
  (open_for_write st filepath <> None ->
   save_json_data J json_dump data filepath st = (inr false, st)).
Proof.
  rewrite save_json_data_run. split.
  - intros ->. rewrite Hdump. simpl.
    now rewrite String.eqb_refl.
  - intro H. destruct (open_for_write st filepath); [reflexivity|].
    now elim H.
Qed.

Lemma save_json_data_failure_truncates_witness :
  text_of
    (snd (save_json_data string
            (fun _ => ("{", Some (Exn LibraryError "not serializable")))
            "data" "/tmp/state.json"
            (write_text "/tmp/state.json" "old" Doubles2.no_files)))
    "/tmp/state.json" = Some "{".
Proof.
  exact (proj2 (proj1 (save_json_data_failure_truncates string
                  (fun _ => ("{", Some (Exn LibraryError "not serializable")))
                  "data" "/tmp/state.json"
                  (write_text "/tmp/state.json" "old" Doubles2.no_files)
                  (Exn LibraryError "not serializable") eq_refl) eq_refl)).
Defined.

(** [load_json_data] never raises and never changes a file.  It
    returns [None] for a path that does not exist, for a file that cannot
    be opened and for a text that does not parse, and otherwise what the
    parser returns, so a stored [null] cannot be told from a missing
    file. *)
Theorem load_json_data_never_raises (J : Type)
  (json_load : string -> result (option J))
  (filepath : string) (st : TextFiles) :
  load_json_data J json_load filepath st =
  (inr match text_of st filepath with
       | None => None
       | Some text =>
           match open_for_read st filepath, json_load text with
           | None, inr value => value
           | _, _ => None
           end
       end, st).
Proof.
  unfold load_json_data, try_except, bind, get, ret, raise, lift.
  cbv beta iota.
  destruct (text_of st filepath) as [text|]; [|reflexivity].
  destruct (open_for_read st filepath); [reflexivity|].
  destruct (json_load text); reflexivity.
Qed.
